(** * The [oc create identity] command (pkg/oc/cli/cmd/create/identity.go)

    A shallow embedding of [CreateIdentityOptions] and of its three methods
    [Complete], [Validate] and [Run], followed by the properties the
    specification states about them.

    Go strings are byte sequences and are modelled by [string]; a method
    with a pointer receiver becomes a computation in a small state and
    error monad whose state holds the receiver, the state of the external
    collaborators and the log of the calls made to them. *)

From Stdlib Require Import String Ascii List Bool Arith Lia.
Import ListNotations.
Open Scope string_scope.

(** ** The parts of Go's [strings] and [fmt] packages the command uses *)

Module strings.

(** [strings.Count(s, sep)] for a one-byte separator. *)
Fixpoint Count (s : string) (sep : ascii) : nat :=
  match s with
  | EmptyString => 0
  | String c s' => (if Ascii.eqb c sep then 1 else 0) + Count s' sep
  end.

(** [strings.Split(s, sep)] for a one-byte separator, which is how
    [Complete] calls it: the substrings of [s] between the occurrences
    of [sep], in order; a string without [sep] gives the one-element
    slice [[s]] (also when [s] is empty). *)
Fixpoint Split (s : string) (sep : ascii) : list string :=
  match s with
  | EmptyString => [EmptyString]
  | String c s' =>
      if Ascii.eqb c sep then EmptyString :: Split s' sep
      else match Split s' sep with
           | [] => [String c EmptyString]
           | p :: ps => String c p :: ps
           end
  end.

(** [strings.Join(elems, sep)]. *)
Definition Join (elems : list string) (sep : string) : string :=
  String.concat sep elems.

End strings.

Module fmt.

(** What the verb [%v] prints for a [[]string]: the elements separated
    by one space, between square brackets. *)
Definition Sprint_v (args : list string) : string :=
  "[" ++ strings.Join args " " ++ "]".

End fmt.

(** An [error] value: one built in this file by [fmt.Errorf], known by its
    message, or one handed back by a collaborator, which the command only
    passes on. *)
Inductive error (F : Type) : Type :=
| Errorf (msg : string)
| Foreign (e : F).
Arguments Errorf {F} msg.
Arguments Foreign {F} e.

(** Modelled from the spec: the type [userapi.Identity] is declared in
    pkg/user/apis/user, outside this file.  The command writes its fields
    [ProviderName] and [ProviderUserName]; [Name] stands for the object
    metadata, which the server fills in. *)
Module userapi.

Record Identity : Type := mkIdentity {
  Name : string;
  ProviderName : string;
  ProviderUserName : string
}.

(** [userapi.Identity{}], the zero value. *)
Definition zero : Identity :=
  {| Name := ""; ProviderName := ""; ProviderUserName := "" |}.

(** The assignments [identity.ProviderName = v] and
    [identity.ProviderUserName = v]. *)
Definition set_ProviderName (v : string) (i : Identity) : Identity :=
  {| Name := Name i; ProviderName := v; ProviderUserName := ProviderUserName i |}.

Definition set_ProviderUserName (v : string) (i : Identity) : Identity :=
  {| Name := Name i; ProviderName := ProviderName i; ProviderUserName := v |}.

End userapi.

(** ** The external collaborators

    Everything the command consumes and does not define: the command
    framework (flags), the client configuration and the generated client,
    and the two printing helpers of [cmdutil].  A collaborator acts on a
    [World] it alone knows (the cluster, the output sinks) and either
    returns a value or an [error]. *)
Class Externals : Type := {
  World : Type;
  Writer : Type;
  Command : Type;
  Config : Type;
  Clientset : Type;
  ForeignError : Type;
  (** [cmdutil.GetFlagBool(cmd, flag)] and [cmdutil.GetFlagString(cmd, flag)] *)
  GetFlagBool : Command -> string -> bool;
  GetFlagString : Command -> string -> string;
  (** [userclientinternal.NewForConfig(config)] *)
  NewForConfig : Config -> World -> (Clientset + error ForeignError) * World;
  (** [client.User().Identities().Create(identity)] *)
  Identities_Create :
    Clientset -> userapi.Identity -> World -> (userapi.Identity + error ForeignError) * World;
  (** [cmdutil.PrintSuccess(shortOutput, out, obj, dryRun, operation)] *)
  PrintSuccess : bool -> option Writer -> userapi.Identity -> bool -> string -> World -> World;
  (** [cmdutil.PrintObject(cmd, obj, out)] *)
  PrintObject :
    Command -> userapi.Identity -> option Writer -> World -> (unit + error ForeignError) * World
}.

Section Model.

Context `{Ext : Externals}.

Definition err : Type := error ForeignError.

(** A call to a collaborator: it may change the world, and gives a value
    or an error. *)
Definition extcall (A : Type) : Type := World -> (A + err) * World.

(** [kcmdutil.Factory], of which the command uses [ClientConfig]. *)
Record Factory : Type := mkFactory {
  ClientConfig : extcall Config
}.

(** [userclient.IdentityInterface], of which the command uses [Create]. *)
Record IdentityInterface : Type := mkIdentityInterface {
  Create : userapi.Identity -> extcall userapi.Identity
}.

(** Modelled from the spec: the type [ObjectPrinter] is declared in another
    file of package [create]; it is the printer capability
    [Print(object, outputSink) -> error], a function value. *)
Definition ObjectPrinter : Type := userapi.Identity -> option Writer -> extcall unit.

(** The options struct.  An interface or function field that is [nil] is
    [None]. *)
Record CreateIdentityOptions : Type := mkOptions {
  ProviderName : string;
  ProviderUserName : string;
  IdentityClient : option IdentityInterface;
  DryRun : bool;
  OutputFormat : string;
  Out : option Writer;
  Printer : option ObjectPrinter
}.

Definition set_ProviderName (v : string) (o : CreateIdentityOptions) :=
  mkOptions v (ProviderUserName o) (IdentityClient o) (DryRun o)
            (OutputFormat o) (Out o) (Printer o).

Definition set_ProviderUserName (v : string) (o : CreateIdentityOptions) :=
  mkOptions (ProviderName o) v (IdentityClient o) (DryRun o)
            (OutputFormat o) (Out o) (Printer o).

Definition set_IdentityClient (v : option IdentityInterface) (o : CreateIdentityOptions) :=
  mkOptions (ProviderName o) (ProviderUserName o) v (DryRun o)
            (OutputFormat o) (Out o) (Printer o).

Definition set_DryRun (v : bool) (o : CreateIdentityOptions) :=
  mkOptions (ProviderName o) (ProviderUserName o) (IdentityClient o) v
            (OutputFormat o) (Out o) (Printer o).

Definition set_OutputFormat (v : string) (o : CreateIdentityOptions) :=
  mkOptions (ProviderName o) (ProviderUserName o) (IdentityClient o) (DryRun o)
            v (Out o) (Printer o).

Definition set_Printer (v : option ObjectPrinter) (o : CreateIdentityOptions) :=
  mkOptions (ProviderName o) (ProviderUserName o) (IdentityClient o) (DryRun o)
            (OutputFormat o) (Out o) v.

(** The calls a run makes to its collaborators, with their arguments. *)
Inductive event : Type :=
| CallClientConfig
| CallNewForConfig (config : Config)
| CallCreate (identity : userapi.Identity)
| CallPrintSuccess (shortOutput : bool) (out : option Writer) (obj : userapi.Identity)
                   (dryRun : bool) (operation : string)
| CallPrinter (obj : userapi.Identity) (out : option Writer).

(** The machine state of one invocation: the receiver [o], the world of
    the collaborators, and the calls made so far, oldest first. *)
Record state : Type := mkState {
  opts : CreateIdentityOptions;
  world : World;
  calls : list event
}.

(** How a method ends: it returns normally ([Ok]; for a method of result
    type [error] this is [return nil]), it returns a non-nil error, or
    the Go runtime panics. *)
Inductive outcome (A : Type) : Type :=
| Ok (a : A)
| Err (e : err)
| Panic (msg : string).
Arguments Ok {A} a.
Arguments Err {A} e.
Arguments Panic {A} msg.

Definition M (A : Type) : Type := state -> outcome A * state.

Definition ret {A} (a : A) : M A := fun s => (Ok a, s).

Definition bind {A B} (m : M A) (k : A -> M B) : M B :=
  fun s =>
    match m s with
    | (Ok a, s') => k a s'
    | (Err e, s') => (Err e, s')
    | (Panic msg, s') => (Panic msg, s')
    end.

(** [return err] with a non-nil [err]. *)
Definition fail {A} (e : err) : M A := fun s => (Err e, s).

Definition panic {A} (msg : string) : M A := fun s => (Panic msg, s).

(** Reading the receiver, and assigning to one of its fields. *)
Definition receiver : M CreateIdentityOptions := fun s => (Ok (opts s), s).

Definition assign (f : CreateIdentityOptions -> CreateIdentityOptions) : M unit :=
  fun s => (Ok tt, mkState (f (opts s)) (world s) (calls s)).

(** Calling a collaborator: the call is logged, the world moves on, and
    an error it returns becomes the [Err] outcome, which is the
    [if err != nil { return err }] that follows each such call. *)
Definition call {A} (ev : event) (f : extcall A) : M A :=
  fun s =>
    let (r, w) := f (world s) in
    (match r with inl a => Ok a | inr e => Err e end,
     mkState (opts s) w (calls s ++ [ev])).

(** Calling a collaborator that returns nothing. *)
Definition call_ (ev : event) (f : World -> World) : M unit :=
  fun s => (Ok tt, mkState (opts s) (f (world s)) (calls s ++ [ev])).

End Model.

Arguments Ok {Ext A} a.
Arguments Err {Ext A} e.
Arguments Panic {Ext A} msg.

Declare Scope go_scope.
Delimit Scope go_scope with go.
Notation "x <- m ;; k" := (bind m (fun x => k))
  (at level 61, m at next level, right associativity) : go_scope.
Notation "m ;; k" := (bind m (fun _ => k))
  (at level 61, right associativity) : go_scope.
Open Scope go_scope.

(** ** The methods of [CreateIdentityOptions] *)

Section Methods.

Context `{Ext : Externals}.

Definition nil_dereference : string :=
  "runtime error: invalid memory address or nil pointer dereference".

(** [x == nil] for an interface or function value. *)
Definition is_nil {A} (x : option A) : bool :=
  match x with None => true | Some _ => false end.

(** The [switch len(args)] that opens [Complete]. *)
Definition Complete_switch (args : list string) : M unit :=
  match length args with
  | 0 =>
      fail (Errorf "identity name in the format <PROVIDER_NAME>:<PROVIDER_USER_NAME> is required")
  | 1 =>
      let parts := strings.Split (nth 0 args "") ":" in
      if negb (length parts =? 2)%nat then
        fail (Errorf "identity name in the format <PROVIDER_NAME>:<PROVIDER_USER_NAME> is required")
      else
        assign (set_ProviderName (nth 0 parts "")) ;;
        assign (set_ProviderUserName (nth 1 parts ""))
  | _ =>
      fail (Errorf ("exactly one argument (username) is supported, not: "
                    ++ fmt.Sprint_v args))
  end.

Definition Complete (cmd : Command) (f : Factory) (args : list string) : M unit :=
  Complete_switch args ;;
  assign (set_DryRun (GetFlagBool cmd "dry-run")) ;;
  clientConfig <- call CallClientConfig (ClientConfig f) ;;
  client <- call (CallNewForConfig clientConfig) (NewForConfig clientConfig) ;;
  assign (set_IdentityClient
            (Some {| Create := Identities_Create client |})) ;;
  assign (set_OutputFormat (GetFlagString cmd "output")) ;;
  assign (set_Printer (Some (fun obj out => PrintObject cmd obj out))) ;;
  ret tt.

Definition Validate : M unit :=
  o <- receiver ;;
  if (String.length (ProviderName o) =? 0)%nat then
    fail (Errorf "provider name is required")
  else if (String.length (ProviderUserName o) =? 0)%nat then
    fail (Errorf "provider user name is required")
  else if is_nil (IdentityClient o) then
    fail (Errorf "IdentityClient is required")
  else if is_nil (Out o) then
    fail (Errorf "Out is required")
  else if is_nil (Printer o) then
    fail (Errorf "Printer is required")
  else ret tt.

(** The identity [Run] builds before it talks to the server. *)
Definition new_identity (o : CreateIdentityOptions) : userapi.Identity :=
  userapi.set_ProviderUserName (ProviderUserName o)
    (userapi.set_ProviderName (ProviderName o) userapi.zero).

Definition Run : M unit :=
  o <- receiver ;;
  let identity := new_identity o in
  actualIdentity <-
    (if negb (DryRun o) then
       match IdentityClient o with
       | None => panic nil_dereference
       | Some client => call (CallCreate identity) (Create client identity)
       end
     else ret identity) ;;
  let useShortOutput := String.eqb (OutputFormat o) "name" in
  if useShortOutput || (String.length (OutputFormat o) =? 0)%nat then
    call_ (CallPrintSuccess useShortOutput (Out o) actualIdentity (DryRun o) "created")
          (PrintSuccess useShortOutput (Out o) actualIdentity (DryRun o) "created") ;;
    ret tt
  else
    match Printer o with
    | None => panic nil_dereference
    | Some printer =>
        call (CallPrinter actualIdentity (Out o)) (printer actualIdentity (Out o))
    end.

(** The options [NewCmdCreateIdentity] starts from: [{Out: out}]. *)
Definition initial_options (out : option Writer) : CreateIdentityOptions :=
  mkOptions "" "" None false "" out None.

(** The [Run] function of the cobra command: the three methods in turn,
    [cmdutil.CheckErr] ending the command at the first error. *)
Definition command_Run (cmd : Command) (f : Factory) (args : list string) : M unit :=
  Complete cmd f args ;; Validate ;; Run.

(** *** Vocabulary of the specification *)

Definition is_Create (ev : event) : bool :=
  match ev with CallCreate _ => true | _ => false end.

Definition is_Printer (ev : event) : bool :=
  match ev with CallPrinter _ _ => true | _ => false end.

Definition is_client_construction (ev : event) : bool :=
  match ev with CallClientConfig | CallNewForConfig _ => true | _ => false end.

Definition is_output (ev : event) : bool :=
  match ev with CallPrintSuccess _ _ _ _ _ | CallPrinter _ _ => true | _ => false end.

(** The calls made between the state [s] and a later state [s']. *)
Definition emitted (s s' : state) : list event :=
  skipn (length (calls s)) (calls s').

(** The object an output step was given, if [ev] is an output step. *)
Definition output_object (ev : event) : option userapi.Identity :=
  match ev with
  | CallPrintSuccess _ _ obj _ _ => Some obj
  | CallPrinter obj _ => Some obj
  | _ => None
  end.

(** The object [Run] goes on to print, and the state in which it prints
    it: under dry run the identity built locally, nothing having
    happened; otherwise what the one [Create] call returned, when it
    returned no error. *)
Definition resulting_object (s : state) (actual : userapi.Identity) (s1 : state) : Prop :=
  if DryRun (opts s) then actual = new_identity (opts s) /\ s1 = s
  else
    exists client w,
      IdentityClient (opts s) = Some client /\
      Create client (new_identity (opts s)) (world s) = (inl actual, w) /\
      s1 = mkState (opts s) w (calls s ++ [CallCreate (new_identity (opts s))]).

(** The checks of [Validate] as the specification lists them: in order,
    what makes each one fail and the message it fails with. *)
Definition Validate_checks (o : CreateIdentityOptions) : list (bool * string) :=
  [ (String.eqb (ProviderName o) "", "provider name is required");
    (String.eqb (ProviderUserName o) "", "provider user name is required");
    (is_nil (IdentityClient o), "IdentityClient is required");
    (is_nil (Out o), "Out is required");
    (is_nil (Printer o), "Printer is required") ].

Definition first_failing (checks : list (bool * string)) : option string :=
  option_map snd (find fst checks).

(** The result of a collaborator as the outcome of the method that
    returns it. *)
Definition outcome_of {A} (r : A + err) : outcome A :=
  match r with inl a => Ok a | inr e => Err e end.

End Methods.

(** ** A test double for the collaborators

    The world is the list of identity names on the server and the lines
    written so far.  The server names an identity [provider:user] and
    refuses a second one of the same name; a command is its two flags. *)
Module Mock.

Record world : Type := mkWorld {
  stored : list string;
  printed : list string
}.

Record command : Type := mkCommand {
  dry_run : bool;
  output : string
}.

Definition identity_name (i : userapi.Identity) : string :=
  userapi.ProviderName i ++ ":" ++ userapi.ProviderUserName i.

Definition create (_ : unit) (i : userapi.Identity) (w : world)
  : (userapi.Identity + error string) * world :=
  if existsb (String.eqb (identity_name i)) (stored w) then
    (inr (Foreign "AlreadyExists"), w)
  else
    (inl (userapi.mkIdentity (identity_name i) (userapi.ProviderName i)
                             (userapi.ProviderUserName i)),
     mkWorld (stored w ++ [identity_name i]) (printed w)).

Definition print_success (shortOutput : bool) (_ : option unit) (obj : userapi.Identity)
           (dryRun : bool) (operation : string) (w : world) : world :=
  let line :=
    if shortOutput then "identity/" ++ userapi.Name obj
    else if dryRun then "identity/" ++ userapi.Name obj ++ " " ++ operation ++ " (dry run)"
    else "identity/" ++ userapi.Name obj ++ " " ++ operation in
  mkWorld (stored w) (printed w ++ [line]).

Definition print_object (cmd : command) (obj : userapi.Identity) (_ : option unit) (w : world)
  : (unit + error string) * world :=
  if String.eqb (output cmd) "json" then
    (inl tt, mkWorld (stored w) (printed w ++ ["{" ++ identity_name obj ++ "}"]))
  else (inr (Foreign "unknown output format"), w).

Definition externals : Externals := {|
  World := world;
  Writer := unit;
  Command := command;
  Config := unit;
  Clientset := unit;
  ForeignError := string;
  GetFlagBool := fun cmd flag => if String.eqb flag "dry-run" then dry_run cmd else false;
  GetFlagString := fun cmd flag => if String.eqb flag "output" then output cmd else "";
  NewForConfig := fun _ w => (inl tt, w);
  Identities_Create := create;
  PrintSuccess := print_success;
  PrintObject := print_object
|}.

Definition factory : @Factory externals :=
  @mkFactory externals (fun w => (inl tt, w)).

Definition empty_world : world := mkWorld [] [].

(** Three settings of the flags. *)
Definition plain : command := mkCommand false "".
Definition dry : command := mkCommand true "".
Definition json : command := mkCommand false "json".

Definition stdout : option (@Writer externals) := Some tt.

(** The state in which the command starts, writing to standard output. *)
Definition start : @state externals :=
  @mkState externals (@initial_options externals stdout) empty_world [].

(** The state [Complete] leaves for [acme_ldap:adamjones] and the given
    flags. *)
Definition completed (cmd : command) : @state externals :=
  snd (@Complete externals cmd factory ["acme_ldap:adamjones"] start).

(** The same, on a server that already has this identity. *)
Definition conflicting (cmd : command) : @state externals :=
  @mkState externals (@opts externals (completed cmd))
           (mkWorld ["acme_ldap:adamjones"] [])
           (@calls externals (completed cmd)).

Definition local_identity : userapi.Identity :=
  userapi.mkIdentity "" "acme_ldap" "adamjones".

(** A factory without a client configuration. *)
Definition failing_factory : @Factory externals :=
  @mkFactory externals (fun w => (inr (Foreign "no configuration"), w)).


(** The same collaborators, except that no client can be built from the
    configuration. *)
Definition externals_no_client : Externals := {|
  World := world;
  Writer := unit;
  Command := command;
  Config := unit;
  Clientset := unit;
  ForeignError := string;
  GetFlagBool := fun cmd flag => if String.eqb flag "dry-run" then dry_run cmd else false;
  GetFlagString := fun cmd flag => if String.eqb flag "output" then output cmd else "";
  NewForConfig := fun _ w => (inr (Foreign "invalid configuration"), w);
  Identities_Create := create;
  PrintSuccess := print_success;
  PrintObject := print_object
|}.

Definition factory_no_client : @Factory externals_no_client :=
  @mkFactory externals_no_client (fun w => (inl tt, w)).

Definition start_no_client : @state externals_no_client :=
  @mkState externals_no_client (@initial_options externals_no_client (Some tt))
           empty_world [].

Definition server_identity : userapi.Identity :=
  userapi.mkIdentity "acme_ldap:adamjones" "acme_ldap" "adamjones".

End Mock.

(** ** Facts about [strings.Split] *)

(** [Split] never gives the empty slice: the [[]] branch of its definition
    is dead. *)
Lemma Split_not_nil (s : string) (sep : ascii) : strings.Split s sep <> [].
Proof.
  destruct s as [|c s]; simpl; [discriminate|].
  destruct (Ascii.eqb c sep); [discriminate|].
  destruct (strings.Split s sep); discriminate.
Qed.

(** Go sizes the result as [Count(s, sep) + 1]. *)
Lemma Split_length (s : string) (sep : ascii) :
  length (strings.Split s sep) = S (strings.Count s sep).
Proof.
  induction s as [|c s IH]; simpl; [reflexivity|].
  destruct (Ascii.eqb c sep); simpl.
  - now rewrite IH.
  - destruct (strings.Split s sep) as [|p ps] eqn:E; simpl in *; [discriminate|].
    exact IH.
Qed.

Lemma Split_without_sep (s : string) (sep : ascii) :
  strings.Count s sep = 0 -> strings.Split s sep = [s].
Proof.
  induction s as [|c s IH]; simpl; [reflexivity|].
  destruct (Ascii.eqb c sep); simpl; [discriminate|].
  intros H. now rewrite (IH H).
Qed.

Lemma Split_at_first_sep (p u : string) (sep : ascii) :
  strings.Count p sep = 0 ->
  strings.Split (p ++ String sep u) sep = p :: strings.Split u sep.
Proof.
  induction p as [|c p IH]; simpl.
  - intros _. now rewrite Ascii.eqb_refl.
  - destruct (Ascii.eqb c sep); simpl; [discriminate|].
    intros H. now rewrite (IH H).
Qed.

Lemma Split_provider_user (P U : string) :
  strings.Count P ":" = 0 -> strings.Count U ":" = 0 ->
  strings.Split (P ++ ":" ++ U) ":" = [P; U].
Proof.
  intros HP HU. simpl.
  rewrite (Split_at_first_sep P U ":"%char HP).
  now rewrite (Split_without_sep U ":"%char HU).
Qed.

Example Split_foo : strings.Split "foo" ":" = ["foo"].
Proof. reflexivity. Qed.

Example Split_a_b_c : strings.Split "a:b:c" ":" = ["a"; "b"; "c"].
Proof. reflexivity. Qed.

Example Split_colon : strings.Split ":" ":" = [""; ""].
Proof. reflexivity. Qed.

Example Sprint_v_two : fmt.Sprint_v ["a"; "b"] = "[a b]".
Proof. reflexivity. Qed.

(** ** The argument switch of [Complete] *)

Section CompleteProofs.

Context `{Ext : Externals}.

(** Between a state and itself no call was made. *)
Lemma emitted_nil (s s' : state) : s' = s -> emitted s s' = [].
Proof. intros ->. unfold emitted. apply skipn_all. Qed.

(** The switch fails without touching the state. *)
Lemma Complete_switch_error_state (args : list string) (s : state) (e : err) :
  fst (Complete_switch args s) = Err e -> snd (Complete_switch args s) = s.
Proof.
  unfold Complete_switch.
  destruct args as [|a [|b rest]]; simpl; try reflexivity.
  destruct (length (strings.Split a ":") =? 2)%nat; simpl; [|reflexivity].
  unfold bind, assign; simpl. discriminate.
Qed.

(** An error of the switch is the result of [Complete]. *)
Lemma Complete_switch_error (cmd : Command) (f : Factory) (args : list string)
      (s : state) (e : err) :
  fst (Complete_switch args s) = Err e -> Complete cmd f args s = (Err e, s).
Proof.
  intros H. pose proof (Complete_switch_error_state args s e H) as Hs.
  unfold Complete. unfold bind at 1.
  destruct (Complete_switch args s) as [r s']. simpl in *. now subst.
Qed.

(** On one argument with exactly one colon the switch stores both sides. *)
Lemma Complete_switch_two_parts (a p u : string) (s : state) :
  strings.Split a ":" = [p; u] ->
  Complete_switch [a] s =
    (Ok tt, mkState (set_ProviderUserName u (set_ProviderName p (opts s)))
                    (world s) (calls s)).
Proof.
  intros H. unfold Complete_switch. simpl. rewrite H. reflexivity.
Qed.

(** What [Complete] does once the switch has let the arguments through. *)
Lemma Complete_past_switch (cmd : Command) (f : Factory) (args : list string)
      (s s1 : state) :
  Complete_switch args s = (Ok tt, s1) ->
  Complete cmd f args s =
    let o1 := set_DryRun (GetFlagBool cmd "dry-run") (opts s1) in
    match ClientConfig f (world s1) with
    | (inr e, w) => (Err e, mkState o1 w (calls s1 ++ [CallClientConfig]))
    | (inl config, w) =>
        match NewForConfig config w with
        | (inr e, w') =>
            (Err e, mkState o1 w' (calls s1 ++ [CallClientConfig; CallNewForConfig config]))
        | (inl client, w') =>
            (Ok tt,
             mkState
               (set_Printer (Some (fun obj out => PrintObject cmd obj out))
                  (set_OutputFormat (GetFlagString cmd "output")
                     (set_IdentityClient (Some {| Create := Identities_Create client |}) o1)))
               w' (calls s1 ++ [CallClientConfig; CallNewForConfig config]))
        end
    end.
Proof.
  intros H. unfold Complete, bind. rewrite H.
  unfold assign, call, ret; simpl.
  destruct (ClientConfig f (world s1)) as [[config|e] w]; simpl; [|reflexivity].
  destruct (NewForConfig config w) as [[client|e] w']; simpl;
    rewrite <- app_assoc; reflexivity.
Qed.

(** After the switch nothing assigns to the two name fields or to [Out],
    and the next thing [Complete] does is to ask for the client
    configuration. *)
Lemma Complete_after_switch (cmd : Command) (f : Factory) (args : list string)
      (s s1 : state) :
  Complete_switch args s = (Ok tt, s1) ->
  ProviderName (opts (snd (Complete cmd f args s))) = ProviderName (opts s1) /\
  ProviderUserName (opts (snd (Complete cmd f args s))) = ProviderUserName (opts s1) /\
  Out (opts (snd (Complete cmd f args s))) = Out (opts s1) /\
  exists evs,
    calls (snd (Complete cmd f args s)) = (calls s1 ++ CallClientConfig :: evs)%list.
Proof.
  intros H. rewrite (Complete_past_switch cmd f args s s1 H). simpl.
  destruct (ClientConfig f (world s1)) as [[config|e] w]; simpl.
  - destruct (NewForConfig config w) as [[client|e] w']; simpl;
      repeat split; eexists; reflexivity.
  - repeat split; eexists; reflexivity.
Qed.

(** The switch fails in three cases and in no other. *)
Lemma Complete_switch_fails_iff (args : list string) (s : state) :
  (exists e, fst (Complete_switch args s) = Err e) <->
  (args = [] \/
   (exists a, args = [a] /\ length (strings.Split a ":") <> 2) \/
   2 <= length args).
Proof.
  unfold Complete_switch.
  destruct args as [|a [|b rest]]; simpl.
  - split; [intros _; now left | intros _; eexists; reflexivity].
  - destruct (length (strings.Split a ":") =? 2)%nat eqn:E; simpl.
    + apply Nat.eqb_eq in E. split.
      * intros [e H]. discriminate.
      * intros [H|[[a' [H Hn]]|H]]; [discriminate| |lia].
        injection H as <-. contradiction.
    + apply Nat.eqb_neq in E. split.
      * intros _. right; left. now exists a.
      * intros _. eexists; reflexivity.
  - split; [intros _; right; right; lia | intros _; eexists; reflexivity].
Qed.

(** C1. When [Complete] is given the single argument [P:U], with [P] and
    [U] non-empty and free of colons, the argument switch returns no
    error and stores [P] in [ProviderName] and [U] in
    [ProviderUserName]; the fields still hold these values when
    [Complete] ends, and an error [Complete] returns can only be the one
    of the client construction that follows the switch. *)
Theorem Complete_parses_provider_and_user
        (cmd : Command) (f : Factory) (P U : string) (s : state) :
  P <> "" -> U <> "" ->
  strings.Count P ":" = 0 -> strings.Count U ":" = 0 ->
  Complete_switch [P ++ ":" ++ U] s =
    (Ok tt, mkState (set_ProviderUserName U (set_ProviderName P (opts s)))
                    (world s) (calls s)) /\
  ProviderName (opts (snd (Complete cmd f [P ++ ":" ++ U] s))) = P /\
  ProviderUserName (opts (snd (Complete cmd f [P ++ ":" ++ U] s))) = U /\
  fst (Complete cmd f [P ++ ":" ++ U] s) =
    match ClientConfig f (world s) with
    | (inr e, _) => Err e
    | (inl config, w) =>
        match NewForConfig config w with
        | (inr e, _) => Err e
        | (inl _, _) => Ok tt
        end
    end.
Proof.
  intros _ _ HP HU.
  pose proof (Complete_switch_two_parts (P ++ ":" ++ U) P U s
                (Split_provider_user P U HP HU)) as Hsw.
  split; [exact Hsw|].
  destruct (Complete_after_switch cmd f _ s _ Hsw) as (Hp & Hu & _ & _).
  repeat split; [exact Hp | exact Hu |].
  rewrite (Complete_past_switch cmd f _ s _ Hsw). simpl.
  destruct (ClientConfig f (world s)) as [[config|e] w]; simpl; [|reflexivity].
  destruct (NewForConfig config w) as [[client|e] w']; reflexivity.
Qed.

(** C6. With no positional argument [Complete] fails with the "identity
    name ... is required" error, and the state is the one it started
    in: no client configuration was asked for and no client was built. *)
Theorem Complete_no_argument (cmd : Command) (f : Factory) (s : state) :
  Complete cmd f [] s =
    (Err (Errorf
       "identity name in the format <PROVIDER_NAME>:<PROVIDER_USER_NAME> is required"),
     s) /\
  filter is_client_construction (emitted s (snd (Complete cmd f [] s))) = [].
Proof.
  split; [reflexivity|].
  rewrite (emitted_nil s (snd (Complete cmd f [] s))); reflexivity.
Qed.

(** C7. With one positional argument that [strings.Split] on [":"] does
    not cut into exactly two parts, [Complete] fails with the format
    error, and the state is the one it started in: no client was
    built. *)
Theorem Complete_malformed_argument
        (cmd : Command) (f : Factory) (a : string) (s : state) :
  length (strings.Split a ":") <> 2 ->
  Complete cmd f [a] s =
    (Err (Errorf
       "identity name in the format <PROVIDER_NAME>:<PROVIDER_USER_NAME> is required"),
     s) /\
  filter is_client_construction (emitted s (snd (Complete cmd f [a] s))) = [].
Proof.
  intros H.
  assert (Hc : Complete cmd f [a] s =
               (Err (Errorf
                  "identity name in the format <PROVIDER_NAME>:<PROVIDER_USER_NAME> is required"),
                s)).
  { apply Complete_switch_error.
    unfold Complete_switch; simpl.
    apply Nat.eqb_neq in H. now rewrite H. }
  split; [exact Hc|].
  rewrite (emitted_nil s (snd (Complete cmd f [a] s))); [reflexivity|].
  now rewrite Hc.
Qed.

(** C8. With two or more positional arguments [Complete] fails with the
    "exactly one argument" error, whose message ends with the arguments
    as [%v] prints them. *)
Theorem Complete_too_many_arguments
        (cmd : Command) (f : Factory) (args : list string) (s : state) :
  2 <= length args ->
  Complete cmd f args s =
    (Err (Errorf ("exactly one argument (username) is supported, not: "
                  ++ "[" ++ strings.Join args " " ++ "]")),
     s).
Proof.
  intros H. apply Complete_switch_error.
  destruct args as [|a [|b rest]]; simpl in H; try lia.
  reflexivity.
Qed.

(** C9. For the single argument [":"] the argument switch succeeds and
    sets both names to the empty string; they are still empty when
    [Complete] ends, whatever it returns, and [Validate] then fails with
    "provider name is required".  In the command, once [Complete] has
    returned no error, that error of [Validate] is the result. *)
Theorem Complete_accepts_lone_colon (cmd : Command) (f : Factory) (s : state) :
  Complete_switch [":"] s =
    (Ok tt, mkState (set_ProviderUserName "" (set_ProviderName "" (opts s)))
                    (world s) (calls s)) /\
  ProviderName (opts (snd (Complete cmd f [":"] s))) = "" /\
  ProviderUserName (opts (snd (Complete cmd f [":"] s))) = "" /\
  Validate (snd (Complete cmd f [":"] s)) =
    (Err (Errorf "provider name is required"), snd (Complete cmd f [":"] s)) /\
  command_Run cmd f [":"] s =
    match Complete cmd f [":"] s with
    | (Ok _, s') => (Err (Errorf "provider name is required"), s')
    | other => other
    end.
Proof.
  assert (Hsw : Complete_switch [":"] s =
                (Ok tt, mkState (set_ProviderUserName "" (set_ProviderName "" (opts s)))
                                (world s) (calls s))) by reflexivity.
  destruct (Complete_after_switch cmd f _ s _ Hsw) as (Hp & Hu & _ & _).
  simpl in Hp, Hu.
  assert (Hv : Validate (snd (Complete cmd f [":"] s)) =
               (Err (Errorf "provider name is required"), snd (Complete cmd f [":"] s))).
  { unfold Validate, bind, receiver. rewrite Hp. reflexivity. }
  repeat split; try assumption.
  unfold command_Run. unfold bind at 1.
  destruct (Complete cmd f [":"] s) as [[[]|e|msg] s'] eqn:E; try reflexivity.
  simpl in Hv. unfold bind at 1. rewrite Hv. reflexivity.
Qed.

(** C10. The argument switch returns an error for no argument, for one
    argument that does not split in two, for two or more arguments, and
    in no other case.  When it does, [Complete] returns that error and
    leaves the state as it found it: [ProviderName], [ProviderUserName],
    [DryRun], [IdentityClient], [OutputFormat] and [Printer] all keep
    their values. *)
Theorem Complete_switch_error_keeps_options
        (cmd : Command) (f : Factory) (args : list string) (s : state) (e : err) :
  fst (Complete_switch args s) = Err e ->
  (args = [] \/
   (exists a, args = [a] /\ length (strings.Split a ":") <> 2) \/
   2 <= length args) /\
  Complete cmd f args s = (Err e, s) /\
  let o' := opts (snd (Complete cmd f args s)) in
  ProviderName o' = ProviderName (opts s) /\
  ProviderUserName o' = ProviderUserName (opts s) /\
  DryRun o' = DryRun (opts s) /\
  IdentityClient o' = IdentityClient (opts s) /\
  OutputFormat o' = OutputFormat (opts s) /\
  Printer o' = Printer (opts s).
Proof.
  intros H. split.
  - apply (Complete_switch_fails_iff args s). now exists e.
  - rewrite (Complete_switch_error cmd f args s e H). simpl. repeat split.
Qed.

End CompleteProofs.

(** ** [Validate] and [Run] *)

Section RunProofs.

Context `{Ext : Externals}.

Lemma len_zero_eqb (x : string) : (String.length x =? 0)%nat = String.eqb x "".
Proof. destruct x; reflexivity. Qed.

(** [Validate] only reads. *)
Lemma Validate_state (s : state) : snd (Validate s) = s.
Proof.
  unfold Validate, bind, receiver, fail, ret.
  repeat match goal with |- context [if ?b then _ else _] => destruct b end;
    reflexivity.
Qed.

(** [Validate] is the first failing check of the list. *)
Lemma Validate_first_failing (s : state) :
  fst (Validate s) =
    match first_failing (Validate_checks (opts s)) with
    | Some msg => Err (Errorf msg)
    | None => Ok tt
    end.
Proof.
  unfold Validate, bind, receiver, fail, ret, first_failing, Validate_checks.
  simpl. rewrite !len_zero_eqb.
  repeat match goal with |- context [if ?b then _ else _] => destruct b; simpl end;
    reflexivity.
Qed.

(** C5. [Validate] returns an error exactly when [ProviderName] is empty,
    [ProviderUserName] is empty, or [IdentityClient], [Out] or [Printer]
    is unset; the error is that of the first of these checks, in this
    order, that fails; when none fails it returns no error.  It changes
    nothing. *)
Theorem Validate_checks_in_order (s : state) :
  let o := opts s in
  ((exists e, fst (Validate s) = Err e) <->
   (ProviderName o = "" \/ ProviderUserName o = "" \/
    IdentityClient o = None \/ Out o = None \/ Printer o = None)) /\
  (fst (Validate s) = Ok tt <->
   (ProviderName o <> "" /\ ProviderUserName o <> "" /\
    IdentityClient o <> None /\ Out o <> None /\ Printer o <> None)) /\
  fst (Validate s) =
    match first_failing (Validate_checks o) with
    | Some msg => Err (Errorf msg)
    | None => Ok tt
    end /\
  snd (Validate s) = s.
Proof.
  intros o. subst o.
  split; [|split; [|split; [apply Validate_first_failing | apply Validate_state]]].
  - rewrite Validate_first_failing. unfold first_failing, Validate_checks.
    destruct (opts s) as [pn pun ic dr fmt out pr]; simpl.
    destruct pn, pun, ic, out, pr; simpl; split;
      solve [ intros [e H]; discriminate
            | intros _; eexists; reflexivity
            | intros _; auto
            | intros [H|[H|[H|[H|H]]]]; discriminate ].
  - rewrite Validate_first_failing. unfold first_failing, Validate_checks.
    destruct (opts s) as [pn pun ic dr fmt out pr]; simpl.
    destruct pn, pun, ic, out, pr; simpl; split;
      solve [ discriminate
            | intros (H1 & H2 & H3 & H4 & H5); congruence
            | intros _; repeat split; discriminate
            | intros _; reflexivity ].
Qed.

Lemma emitted_app (s s' : state) (evs : list event) :
  calls s' = (calls s ++ evs)%list -> emitted s s' = evs.
Proof.
  intros H. unfold emitted. rewrite H.
  rewrite skipn_app, skipn_all, Nat.sub_diag. reflexivity.
Qed.

(** The state in which [Run] prints differs from the one it started in
    by at most the [Create] call. *)
Lemma resulting_object_calls (s s1 : state) (actual : userapi.Identity) :
  resulting_object s actual s1 ->
  opts s1 = opts s /\
  calls s1 = (calls s ++ if DryRun (opts s) then []
                         else [CallCreate (new_identity (opts s))])%list.
Proof.
  unfold resulting_object. destruct (DryRun (opts s)).
  - intros [_ ->]. now rewrite app_nil_r.
  - intros (client & w & _ & _ & ->). now split.
Qed.

(** [Run] from the point where it has the object to print. *)
Lemma Run_prints (s s1 : state) (actual : userapi.Identity) :
  resulting_object s actual s1 ->
  let o := opts s in
  let useShortOutput := String.eqb (OutputFormat o) "name" in
  Run s =
    if useShortOutput || String.eqb (OutputFormat o) "" then
      (Ok tt,
       mkState o (PrintSuccess useShortOutput (Out o) actual (DryRun o) "created" (world s1))
               (calls s1 ++ [CallPrintSuccess useShortOutput (Out o) actual (DryRun o)
                                              "created"]))
    else
      match Printer o with
      | Some printer =>
          (outcome_of (fst (printer actual (Out o) (world s1))),
           mkState o (snd (printer actual (Out o) (world s1)))
                   (calls s1 ++ [CallPrinter actual (Out o)]))
      | None => (Panic nil_dereference, s1)
      end.
Proof.
  intros H. cbv zeta. unfold resulting_object in H.
  unfold Run, bind, receiver. rewrite len_zero_eqb.
  destruct (DryRun (opts s)) eqn:Hdry; simpl.
  - destruct H as [-> ->]. unfold ret at 1.
    destruct (String.eqb (OutputFormat (opts s)) "name" ||
              String.eqb (OutputFormat (opts s)) ""); simpl.
    + unfold call_, ret. reflexivity.
    + destruct (Printer (opts s)) as [printer|]; [|reflexivity].
      unfold call, outcome_of.
      destruct (printer (new_identity (opts s)) (Out (opts s)) (world s)) as [r w].
      reflexivity.
  - destruct H as (client & w & Hc & Hcreate & ->). rewrite Hc.
    unfold call at 1. rewrite Hcreate. simpl.
    destruct (String.eqb (OutputFormat (opts s)) "name" ||
              String.eqb (OutputFormat (opts s)) ""); simpl.
    + unfold call_, ret. reflexivity.
    + destruct (Printer (opts s)) as [printer|]; [|reflexivity].
      unfold call, outcome_of. simpl.
      destruct (printer actual (Out (opts s)) w) as [r w'].
      reflexivity.
Qed.

(** [Run] when the server refuses the identity. *)
Lemma Run_create_error (s : state) (client : IdentityInterface) (e : err) (w : World) :
  DryRun (opts s) = false ->
  IdentityClient (opts s) = Some client ->
  Create client (new_identity (opts s)) (world s) = (inr e, w) ->
  Run s = (Err e, mkState (opts s) w (calls s ++ [CallCreate (new_identity (opts s))])).
Proof.
  intros Hdry Hc Hcreate. unfold Run, bind, receiver.
  rewrite Hdry, Hc. simpl. unfold call at 1. rewrite Hcreate. reflexivity.
Qed.

(** The calls [Run] makes once it has the object to print. *)
Lemma Run_emits (s s1 : state) (actual : userapi.Identity) :
  resulting_object s actual s1 ->
  let o := opts s in
  let useShortOutput := String.eqb (OutputFormat o) "name" in
  emitted s (snd (Run s)) =
    ((if DryRun o then [] else [CallCreate (new_identity o)]) ++
     (if useShortOutput || String.eqb (OutputFormat o) "" then
        [CallPrintSuccess useShortOutput (Out o) actual (DryRun o) "created"]
      else
        match Printer o with
        | Some _ => [CallPrinter actual (Out o)]
        | None => []
        end))%list.
Proof.
  intros H. cbv zeta.
  apply emitted_app. rewrite (Run_prints s s1 actual H). simpl.
  destruct (resulting_object_calls s s1 actual H) as [_ Hcalls].
  destruct (String.eqb (OutputFormat (opts s)) "name" ||
            String.eqb (OutputFormat (opts s)) ""); simpl.
  - rewrite Hcalls, <- app_assoc. reflexivity.
  - destruct (Printer (opts s)); simpl.
    + rewrite Hcalls, <- app_assoc. reflexivity.
    + rewrite Hcalls, app_nil_r. reflexivity.
Qed.

(** What an options value that passes [Validate] has. *)
Lemma Validate_ok_inv (s : state) :
  fst (Validate s) = Ok tt ->
  ProviderName (opts s) <> "" /\ ProviderUserName (opts s) <> "" /\
  (exists client, IdentityClient (opts s) = Some client) /\
  (exists out, Out (opts s) = Some out) /\
  (exists printer, Printer (opts s) = Some printer).
Proof.
  rewrite Validate_first_failing. unfold first_failing, Validate_checks.
  destruct (opts s) as [pn pun ic dr fmt out pr]; simpl.
  destruct pn, pun, ic, out, pr; simpl; try discriminate.
  intros _. repeat split; try discriminate; eexists; reflexivity.
Qed.

Lemma output_has_no_Create (o : CreateIdentityOptions) (actual : userapi.Identity) :
  let useShortOutput := String.eqb (OutputFormat o) "name" in
  filter is_Create
    (if useShortOutput || String.eqb (OutputFormat o) "" then
       [CallPrintSuccess useShortOutput (Out o) actual (DryRun o) "created"]
     else
       match Printer o with
       | Some _ => [CallPrinter actual (Out o)]
       | None => []
       end) = [].
Proof.
  cbv zeta.
  destruct (String.eqb (OutputFormat o) "name" || String.eqb (OutputFormat o) "");
    [reflexivity|].
  destruct (Printer o); reflexivity.
Qed.

(** C2. For options that pass [Validate] and have [DryRun] false, [Run]
    builds an identity with the two names of the options and calls
    [Create] of the identity client exactly once, with that identity.
    When [Create] returns an error, [Run] returns this very error, the
    [Create] call is the only call made, and the world is as [Create]
    left it: nothing was printed.  When [Create] returns an identity,
    [Run] goes on in the world [Create] left and gives that identity to
    the one output step, whose effect on the world and whose result are
    those of [Run]. *)
Theorem Run_creates_exactly_once (s : state) :
  fst (Validate s) = Ok tt ->
  DryRun (opts s) = false ->
  let o := opts s in
  let identity := new_identity o in
  let useShortOutput := String.eqb (OutputFormat o) "name" in
  userapi.ProviderName identity = ProviderName o /\
  userapi.ProviderUserName identity = ProviderUserName o /\
  filter is_Create (emitted s (snd (Run s))) = [CallCreate identity] /\
  exists client printer,
    IdentityClient o = Some client /\
    Printer o = Some printer /\
    match Create client identity (world s) with
    | (inr e, w) =>
        Run s = (Err e, mkState o w (calls s ++ [CallCreate identity])) /\
        filter is_output (emitted s (snd (Run s))) = []
    | (inl actual, w) =>
        resulting_object s actual (mkState o w (calls s ++ [CallCreate identity])) /\
        Run s =
          if useShortOutput || String.eqb (OutputFormat o) "" then
            (Ok tt,
             mkState o (PrintSuccess useShortOutput (Out o) actual false "created" w)
                     (calls s ++
                      [CallCreate identity;
                       CallPrintSuccess useShortOutput (Out o) actual false "created"]))
          else
            (outcome_of (fst (printer actual (Out o) w)),
             mkState o (snd (printer actual (Out o) w))
                     (calls s ++ [CallCreate identity; CallPrinter actual (Out o)]))
    end.
Proof.
  intros Hv Hdry. cbv zeta.
  destruct (Validate_ok_inv s Hv) as (_ & _ & [client Hc] & _ & [printer Hp]).
  split; [reflexivity|]. split; [reflexivity|].
  destruct (Create client (new_identity (opts s)) (world s)) as [[actual|e] w] eqn:Hcreate.
  - assert (Hres : resulting_object s actual
                     (mkState (opts s) w
                              (calls s ++ [CallCreate (new_identity (opts s))]))).
    { unfold resulting_object. rewrite Hdry. exists client, w. now repeat split. }
    split.
    + rewrite (Run_emits s _ actual Hres), filter_app.
      pose proof (output_has_no_Create (opts s) actual) as Hout.
      cbv zeta in Hout. rewrite Hout, Hdry. reflexivity.
    + exists client, printer. split; [exact Hc|]. split; [exact Hp|].
      rewrite Hcreate. split; [exact Hres|].
      pose proof (Run_prints s _ actual Hres) as Hrun. cbv zeta in Hrun.
      rewrite Hrun, Hp, Hdry. simpl.
      destruct (String.eqb (OutputFormat (opts s)) "name" ||
                String.eqb (OutputFormat (opts s)) "");
        now rewrite <- app_assoc.
  - pose proof (Run_create_error s client e w Hdry Hc Hcreate) as Hrun.
    assert (Hem : emitted s (snd (Run s)) = [CallCreate (new_identity (opts s))]).
    { apply emitted_app. now rewrite Hrun. }
    split; [now rewrite Hem|].
    exists client, printer. split; [exact Hc|]. split; [exact Hp|]. rewrite Hcreate.
    split; [exact Hrun | now rewrite Hem].
Qed.

(** C3. For options with [DryRun] true, [Run] makes no [Create] call, and
    its one call is an output step given the identity built locally from
    the two names of the options: [PrintSuccess] when the format is
    empty or ["name"], the [Printer] otherwise.  That step acts on the
    world [Run] started in, untouched by any [Create], and its result is
    the result of [Run].  (With another format and no [Printer] the call
    through the nil function panics and nothing is called.) *)
Theorem Run_dry_run_skips_create (s : state) :
  DryRun (opts s) = true ->
  let o := opts s in
  let identity := new_identity o in
  let useShortOutput := String.eqb (OutputFormat o) "name" in
  filter is_Create (emitted s (snd (Run s))) = [] /\
  Forall (fun ev => output_object ev = Some identity) (emitted s (snd (Run s))) /\
  userapi.ProviderName identity = ProviderName o /\
  userapi.ProviderUserName identity = ProviderUserName o /\
  emitted s (snd (Run s)) =
    (if useShortOutput || String.eqb (OutputFormat o) "" then
       [CallPrintSuccess useShortOutput (Out o) identity true "created"]
     else
       match Printer o with
       | Some _ => [CallPrinter identity (Out o)]
       | None => []
       end) /\
  Run s =
    if useShortOutput || String.eqb (OutputFormat o) "" then
      (Ok tt,
       mkState o (PrintSuccess useShortOutput (Out o) identity true "created" (world s))
               (calls s ++ [CallPrintSuccess useShortOutput (Out o) identity true "created"]))
    else
      match Printer o with
      | Some printer =>
          (outcome_of (fst (printer identity (Out o) (world s))),
           mkState o (snd (printer identity (Out o) (world s)))
                   (calls s ++ [CallPrinter identity (Out o)]))
      | None => (Panic nil_dereference, s)
      end.
Proof.
  intros Hdry. cbv zeta.
  assert (Hres : resulting_object s (new_identity (opts s)) s).
  { unfold resulting_object. rewrite Hdry. now split. }
  pose proof (Run_emits s s _ Hres) as Hem. cbv zeta in Hem.
  pose proof (Run_prints s s _ Hres) as Hrun. cbv zeta in Hrun.
  rewrite Hdry in Hem, Hrun. simpl in Hem. rewrite Hem.
  split; [|split; [|split; [reflexivity|split; [reflexivity|split; [reflexivity|exact Hrun]]]]].
  - pose proof (output_has_no_Create (opts s) (new_identity (opts s))) as H.
    cbv zeta in H. rewrite Hdry in H. exact H.
  - destruct (String.eqb (OutputFormat (opts s)) "name" ||
              String.eqb (OutputFormat (opts s)) "").
    + repeat constructor.
    + destruct (Printer (opts s)); repeat constructor.
Qed.

(** C4. Once [Run] has the resulting object (the local identity under dry
    run, what [Create] returned otherwise): when [OutputFormat] is empty
    or ["name"] it calls [PrintSuccess] with the short-output flag
    ([OutputFormat == "name"]), [Out], the resulting object, [DryRun]
    and ["created"], returns nil and never calls the [Printer]; for any
    other format it makes no [PrintSuccess] call, calls the [Printer]
    exactly once with the resulting object and [Out], and returns what
    the [Printer] returns.  (With another format and no [Printer] the
    call through the nil function panics.) *)
Theorem Run_output_policy (s s1 : state) (actual : userapi.Identity) :
  resulting_object s actual s1 ->
  let o := opts s in
  let useShortOutput := String.eqb (OutputFormat o) "name" in
  if useShortOutput || String.eqb (OutputFormat o) "" then
    Run s =
      (Ok tt,
       mkState o (PrintSuccess useShortOutput (Out o) actual (DryRun o) "created" (world s1))
               (calls s1 ++ [CallPrintSuccess useShortOutput (Out o) actual (DryRun o)
                                              "created"])) /\
    filter is_Printer (emitted s (snd (Run s))) = []
  else
    match Printer o with
    | Some printer =>
        Run s =
          (outcome_of (fst (printer actual (Out o) (world s1))),
           mkState o (snd (printer actual (Out o) (world s1)))
                   (calls s1 ++ [CallPrinter actual (Out o)])) /\
        filter is_output (emitted s (snd (Run s))) = [CallPrinter actual (Out o)]
    | None => Run s = (Panic nil_dereference, s1)
    end.
Proof.
  intros H. cbv zeta.
  pose proof (Run_prints s s1 actual H) as Hrun.
  pose proof (Run_emits s s1 actual H) as Hem.
  cbv zeta in Hrun, Hem.
  destruct (String.eqb (OutputFormat (opts s)) "name" ||
            String.eqb (OutputFormat (opts s)) "").
  - split; [exact Hrun|]. rewrite Hem.
    destruct (DryRun (opts s)); reflexivity.
  - destruct (Printer (opts s)) as [printer|]; [|exact Hrun].
    split; [exact Hrun|]. rewrite Hem.
    destruct (DryRun (opts s)); reflexivity.
Qed.

(** Conversely, a run that returns nil had a resulting object. *)
Lemma Run_ok_inv (s s' : state) :
  Run s = (Ok tt, s') -> exists actual s1, resulting_object s actual s1.
Proof.
  unfold Run, bind, receiver, resulting_object.
  destruct (DryRun (opts s)); simpl.
  - intros _. now exists (new_identity (opts s)), s.
  - destruct (IdentityClient (opts s)) as [client|]; [|discriminate].
    unfold call at 1.
    destruct (Create client (new_identity (opts s)) (world s)) as [[actual|e] w] eqn:E;
      [|discriminate].
    intros _. eexists actual, _, client, w. now repeat split.
Qed.

End RunProofs.

(** ** More on [strings.Split] *)

(** No part of a split contains the separator. *)
Lemma Split_parts_without_sep (s : string) (sep : ascii) :
  Forall (fun p => strings.Count p sep = 0) (strings.Split s sep).
Proof.
  induction s as [|c s IH]; simpl.
  - repeat constructor.
  - destruct (Ascii.eqb c sep) eqn:E.
    + constructor; [reflexivity | exact IH].
    + destruct (strings.Split s sep) as [|p ps]; [repeat constructor; simpl; now rewrite E|].
      inversion IH as [|? ? Hp Hps]; subst.
      constructor; [simpl; now rewrite E | exact Hps].
Qed.

(** Joining the parts with the separator gives the string back. *)
Lemma Join_Split (s : string) (sep : ascii) :
  strings.Join (strings.Split s sep) (String sep "") = s.
Proof.
  unfold strings.Join.
  induction s as [|c s IH]; simpl; [reflexivity|].
  destruct (Ascii.eqb c sep) eqn:E.
  - apply Ascii.eqb_eq in E. subst c.
    destruct (strings.Split s sep) as [|p ps] eqn:Es.
    + now destruct (Split_not_nil s sep).
    + simpl in *. now rewrite IH.
  - destruct (strings.Split s sep) as [|p ps] eqn:Es.
    + now destruct (Split_not_nil s sep).
    + destruct ps as [|q qs]; simpl in *; now rewrite <- IH.
Qed.

(** A split in two is a cut at the only separator. *)
Lemma Split_two_parts (a p u : string) :
  strings.Split a ":" = [p; u] ->
  a = p ++ ":" ++ u /\ strings.Count p ":" = 0 /\ strings.Count u ":" = 0.
Proof.
  intros H.
  pose proof (Join_Split a ":"%char) as HJ.
  pose proof (Split_parts_without_sep a ":"%char) as HF.
  rewrite H in HJ, HF. unfold strings.Join in HJ. simpl in HJ.
  inversion HF as [|x l Hp Hrest]. inversion Hrest as [|y l' Hu _].
  split; [now symmetry | split; [exact Hp | exact Hu]].
Qed.

Lemma Split_two_parts_iff (a : string) :
  length (strings.Split a ":") = 2 <-> strings.Count a ":" = 1.
Proof. rewrite Split_length. lia. Qed.

(** ** More on [Complete] *)

Section CompleteMore.

Context `{Ext : Externals}.

(** The switch lets the arguments through only when there is one, cut in
    two, and then it stores the two parts and does nothing else. *)
Lemma Complete_switch_ok_inv (args : list string) (s : state) :
  fst (Complete_switch args s) = Ok tt ->
  exists a p u,
    args = [a] /\ strings.Split a ":" = [p; u] /\
    Complete_switch args s =
      (Ok tt, mkState (set_ProviderUserName u (set_ProviderName p (opts s)))
                      (world s) (calls s)).
Proof.
  unfold Complete_switch.
  destruct args as [|a [|b rest]]; simpl; try discriminate.
  destruct (strings.Split a ":") as [|p [|u [|x xs]]] eqn:E; simpl; try discriminate.
  intros _. exists a, p, u. repeat split. exact E.
Qed.

Lemma Complete_switch_one_colon (a : string) (s : state) :
  strings.Count a ":" = 1 ->
  exists p u,
    strings.Split a ":" = [p; u] /\
    Complete_switch [a] s =
      (Ok tt, mkState (set_ProviderUserName u (set_ProviderName p (opts s)))
                      (world s) (calls s)).
Proof.
  intros H. apply Split_two_parts_iff in H.
  destruct (strings.Split a ":") as [|p [|u [|x xs]]] eqn:E; simpl in H; try discriminate.
  exists p, u. split; [reflexivity|].
  now apply Complete_switch_two_parts.
Qed.

(** X1. Given one positional argument, the argument switch of [Complete]
    lets it through exactly when it contains exactly one colon. *)
Theorem Complete_switch_accepts_iff_one_colon (a : string) (s : state) :
  fst (Complete_switch [a] s) = Ok tt <-> strings.Count a ":" = 1.
Proof.
  split.
  - intros H. destruct (Complete_switch_ok_inv [a] s H) as (a' & p & u & Ha & Hs & _).
    injection Ha as <-. apply Split_two_parts_iff. now rewrite Hs.
  - intros H. destruct (Complete_switch_one_colon a s H) as (p & u & _ & Hs).
    now rewrite Hs.
Qed.

(** X2. When the argument switch lets the arguments through, there is one
    argument, and when [Complete] ends (with or without an error of the
    client construction) that argument is [ProviderName], a colon and
    [ProviderUserName], neither of which contains a colon. *)
Theorem Complete_names_rebuild_argument
        (cmd : Command) (f : Factory) (args : list string) (s : state) :
  fst (Complete_switch args s) = Ok tt ->
  let o' := opts (snd (Complete cmd f args s)) in
  args = [ProviderName o' ++ ":" ++ ProviderUserName o'] /\
  strings.Count (ProviderName o') ":" = 0 /\
  strings.Count (ProviderUserName o') ":" = 0.
Proof.
  intros H. cbv zeta.
  destruct (Complete_switch_ok_inv args s H) as (a & p & u & -> & Hs & Hsw).
  destruct (Complete_after_switch cmd f [a] s _ Hsw) as (Hp & Hu & _ & _).
  simpl in Hp, Hu. rewrite Hp, Hu.
  destruct (Split_two_parts a p u Hs) as (Ha & Hcp & Hcu).
  repeat split; [now rewrite Ha | exact Hcp | exact Hcu].
Qed.

(** The switch ends in one of two ways: an error in the state it started
    in, or the two parts stored. *)
Lemma Complete_switch_cases (args : list string) (s : state) :
  (exists e, Complete_switch args s = (Err e, s)) \/
  (exists a p u,
     args = [a] /\ strings.Split a ":" = [p; u] /\
     Complete_switch args s =
       (Ok tt, mkState (set_ProviderUserName u (set_ProviderName p (opts s)))
                       (world s) (calls s))).
Proof.
  destruct (Complete_switch args s) as [[[]|e|msg] s1] eqn:E.
  - right. destruct (Complete_switch_ok_inv args s) as (a & p & u & Ha & Hs & Hsw);
      [now rewrite E|].
    exists a, p, u. repeat split; try assumption. now rewrite <- E.
  - left. exists e.
    pose proof (Complete_switch_error_state args s e) as H.
    rewrite E in H. simpl in H. now rewrite (H eq_refl).
  - exfalso. revert E. unfold Complete_switch.
    destruct args as [|a [|b rest]]; simpl; try discriminate.
    destruct (length (strings.Split a ":") =? 2)%nat; simpl; discriminate.
Qed.

(** X3. When the argument switch has let the arguments through and
    [f.ClientConfig()] returns an error, [Complete] returns that error
    after this one call: [NewForConfig] is not called, and
    [IdentityClient], [OutputFormat] and [Printer] keep their values,
    while [DryRun] has already been read from the flag. *)
Theorem Complete_client_config_error
        (cmd : Command) (f : Factory) (args : list string) (s : state)
        (e : err) (w : World) :
  fst (Complete_switch args s) = Ok tt ->
  ClientConfig f (world s) = (inr e, w) ->
  let r := Complete cmd f args s in
  fst r = Err e /\
  emitted s (snd r) = [CallClientConfig] /\
  world (snd r) = w /\
  DryRun (opts (snd r)) = GetFlagBool cmd "dry-run" /\
  IdentityClient (opts (snd r)) = IdentityClient (opts s) /\
  OutputFormat (opts (snd r)) = OutputFormat (opts s) /\
  Printer (opts (snd r)) = Printer (opts s).
Proof.
  intros H Hcc. cbv zeta.
  destruct (Complete_switch_ok_inv args s H) as (a & p & u & _ & _ & Hsw).
  rewrite (Complete_past_switch cmd f args s _ Hsw). simpl. rewrite Hcc. simpl.
  split; [reflexivity|]. split; [|now repeat split].
  now apply emitted_app.
Qed.

(** X4. When the client configuration was obtained and [NewForConfig]
    returns an error, [Complete] returns that error after these two
    calls, and [IdentityClient], [OutputFormat] and [Printer] keep their
    values, while [DryRun] has already been read from the flag. *)
Theorem Complete_new_for_config_error
        (cmd : Command) (f : Factory) (args : list string) (s : state)
        (config : Config) (e : err) (w w' : World) :
  fst (Complete_switch args s) = Ok tt ->
  ClientConfig f (world s) = (inl config, w) ->
  NewForConfig config w = (inr e, w') ->
  let r := Complete cmd f args s in
  fst r = Err e /\
  emitted s (snd r) = [CallClientConfig; CallNewForConfig config] /\
  world (snd r) = w' /\
  DryRun (opts (snd r)) = GetFlagBool cmd "dry-run" /\
  IdentityClient (opts (snd r)) = IdentityClient (opts s) /\
  OutputFormat (opts (snd r)) = OutputFormat (opts s) /\
  Printer (opts (snd r)) = Printer (opts s).
Proof.
  intros H Hcc Hnew. cbv zeta.
  destruct (Complete_switch_ok_inv args s H) as (a & p & u & _ & _ & Hsw).
  rewrite (Complete_past_switch cmd f args s _ Hsw). simpl. rewrite Hcc, Hnew. simpl.
  split; [reflexivity|]. split; [|now repeat split].
  now apply emitted_app.
Qed.

(** What a [Complete] that returns nil has done. *)
Lemma Complete_ok_inv (cmd : Command) (f : Factory) (args : list string) (s : state) :
  fst (Complete cmd f args s) = Ok tt ->
  exists a p u config w client w',
    args = [a] /\ strings.Split a ":" = [p; u] /\
    ClientConfig f (world s) = (inl config, w) /\
    NewForConfig config w = (inl client, w') /\
    snd (Complete cmd f args s) =
      mkState
        (mkOptions p u (Some {| Create := Identities_Create client |})
                   (GetFlagBool cmd "dry-run") (GetFlagString cmd "output")
                   (Out (opts s)) (Some (fun obj out => PrintObject cmd obj out)))
        w' (calls s ++ [CallClientConfig; CallNewForConfig config]).
Proof.
  destruct (Complete_switch_cases args s) as [[e Hsw]|(a & p & u & Ha & Hs & Hsw)].
  - rewrite (Complete_switch_error cmd f args s e); [discriminate | now rewrite Hsw].
  - rewrite (Complete_past_switch cmd f args s _ Hsw). simpl.
    destruct (ClientConfig f (world s)) as [[config|e] w]; [|discriminate].
    destruct (NewForConfig config w) as [[client|e] w'] eqn:Hnew; [|discriminate].
    intros _. exists a, p, u, config, w, client, w'. now repeat split.
Qed.

(** X5. [Complete] returns nil exactly when the argument switch lets the
    arguments through and both [f.ClientConfig()] and [NewForConfig]
    return no error. *)
Theorem Complete_ok_iff (cmd : Command) (f : Factory) (args : list string) (s : state) :
  fst (Complete cmd f args s) = Ok tt <->
  fst (Complete_switch args s) = Ok tt /\
  exists config w client w',
    ClientConfig f (world s) = (inl config, w) /\
    NewForConfig config w = (inl client, w').
Proof.
  split.
  - intros H.
    destruct (Complete_ok_inv cmd f args s H)
      as (a & p & u & config & w & client & w' & -> & Hs & Hcc & Hnew & _).
    split.
    + now rewrite (Complete_switch_two_parts a p u s Hs).
    + now exists config, w, client, w'.
  - intros [H (config & w & client & w' & Hcc & Hnew)].
    destruct (Complete_switch_ok_inv args s H) as (a & p & u & _ & _ & Hsw).
    rewrite (Complete_past_switch cmd f args s _ Hsw). simpl.
    now rewrite Hcc, Hnew.
Qed.

(** [Complete] only adds calls, all of them of the client construction,
    and it does not panic. *)
Lemma Complete_appends (cmd : Command) (f : Factory) (args : list string) (s : state) :
  (forall msg, fst (Complete cmd f args s) <> Panic msg) /\
  exists evs,
    calls (snd (Complete cmd f args s)) = (calls s ++ evs)%list /\
    forallb is_client_construction evs = true.
Proof.
  destruct (Complete_switch_cases args s) as [[e Hsw]|(a & p & u & Ha & Hs & Hsw)].
  - rewrite (Complete_switch_error cmd f args s e) by now rewrite Hsw.
    split; [discriminate|]. exists []. simpl. now rewrite app_nil_r.
  - rewrite (Complete_past_switch cmd f args s _ Hsw). simpl.
    destruct (ClientConfig f (world s)) as [[config|e] w]; simpl.
    + destruct (NewForConfig config w) as [[client|e] w']; simpl;
        (split; [discriminate|]); eexists; split; reflexivity.
    + split; [discriminate|]. eexists; split; reflexivity.
Qed.

(** X6. Whatever its arguments and however it ends, [Complete] never
    assigns to [Out], never calls [Create] and never calls [PrintSuccess]
    or a printer.  The world of the collaborators is the one it started
    in when the argument switch fails, and otherwise the one left by
    [f.ClientConfig()] followed, when that returned no error, by
    [NewForConfig].  (Reading the two flags and taking
    [client.User().Identities()] are reads: they do not act on that
    world.) *)
Theorem Complete_never_creates_or_prints
        (cmd : Command) (f : Factory) (args : list string) (s : state) :
  let s' := snd (Complete cmd f args s) in
  Out (opts s') = Out (opts s) /\
  filter is_Create (emitted s s') = [] /\
  filter is_output (emitted s s') = [] /\
  world s' =
    match fst (Complete_switch args s) with
    | Ok _ =>
        match ClientConfig f (world s) with
        | (inl config, w) => snd (NewForConfig config w)
        | (inr _, w) => w
        end
    | _ => world s
    end.
Proof.
  cbv zeta.
  destruct (Complete_switch_cases args s) as [[e Hsw]|(a & p & u & Ha & Hs & Hsw)].
  - rewrite (Complete_switch_error cmd f args s e) by now rewrite Hsw.
    rewrite Hsw. simpl. rewrite (emitted_nil s s eq_refl). now repeat split.
  - rewrite (Complete_past_switch cmd f args s _ Hsw). rewrite Hsw. simpl.
    destruct (ClientConfig f (world s)) as [[config|e] w]; simpl.
    + destruct (NewForConfig config w) as [[client|e] w']; simpl;
        (split; [reflexivity|]);
        erewrite emitted_app by reflexivity; simpl; now repeat split.
    + split; [reflexivity|].
      erewrite emitted_app by reflexivity. simpl. now repeat split.
Qed.

End CompleteMore.

(** ** [Validate] between [Complete] and [Run] *)

Section ValidateMore.

Context `{Ext : Externals}.

(** X7. After a [Complete] that returned nil, the checks of [Validate] on
    [IdentityClient] and [Printer] cannot fail: [Validate] fails with
    "provider name is required" when the part before the colon is
    empty, else with "provider user name is required" when the part
    after it is empty, else with "Out is required" when [Out] was nil
    before [Complete], and returns nil otherwise. *)
Theorem Validate_after_Complete
        (cmd : Command) (f : Factory) (args : list string) (s : state) :
  fst (Complete cmd f args s) = Ok tt ->
  let s' := snd (Complete cmd f args s) in
  args = [ProviderName (opts s') ++ ":" ++ ProviderUserName (opts s')] /\
  fst (Validate s') =
    if String.eqb (ProviderName (opts s')) "" then
      Err (Errorf "provider name is required")
    else if String.eqb (ProviderUserName (opts s')) "" then
      Err (Errorf "provider user name is required")
    else if is_nil (Out (opts s)) then
      Err (Errorf "Out is required")
    else Ok tt.
Proof.
  intros H. cbv zeta.
  destruct (Complete_ok_inv cmd f args s H)
    as (a & p & u & config & w & client & w' & -> & Hs & _ & _ & Hst).
  rewrite Hst. simpl.
  destruct (Split_two_parts a p u Hs) as (Ha & _ & _).
  split; [now rewrite Ha|].
  rewrite Validate_first_failing. unfold first_failing, Validate_checks. simpl.
  destruct (String.eqb p ""); [reflexivity|].
  destruct (String.eqb u ""); [reflexivity|].
  destruct (Out (opts s)); reflexivity.
Qed.

End ValidateMore.


(** ** More on [Run] *)

Section RunMore.

Context `{Ext : Externals}.

(** [Run] without an identity client, when it needs one. *)
Lemma Run_nil_client (s : state) :
  DryRun (opts s) = false -> IdentityClient (opts s) = None ->
  Run s = (Panic nil_dereference, s).
Proof.
  intros Hdry Hc. unfold Run, bind, receiver. now rewrite Hdry, Hc.
Qed.

(** The three ways the first half of [Run] can go. *)
Lemma Run_first_half (s : state) :
  (DryRun (opts s) = false /\ IdentityClient (opts s) = None) \/
  (exists client e w,
     DryRun (opts s) = false /\ IdentityClient (opts s) = Some client /\
     Create client (new_identity (opts s)) (world s) = (inr e, w)) \/
  (exists actual s1, resulting_object s actual s1).
Proof.
  unfold resulting_object.
  destruct (DryRun (opts s)) eqn:Hdry.
  - right; right. now exists (new_identity (opts s)), s.
  - destruct (IdentityClient (opts s)) as [client|] eqn:Hc; [|now left].
    destruct (Create client (new_identity (opts s)) (world s)) as [[actual|e] w] eqn:Hcr.
    + right; right. eexists actual, _, client, w. now repeat split.
    + right; left. now exists client, e, w.
Qed.


(** The calls of [Run], in each of the ways it can go. *)
Lemma Run_calls (s : state) :
  opts (snd (Run s)) = opts s /\
  exists creates outputs,
    emitted s (snd (Run s)) = (creates ++ outputs)%list /\
    (creates = [] \/ creates = [CallCreate (new_identity (opts s))]) /\
    (outputs = [] \/ exists ev, outputs = [ev] /\ is_output ev = true).
Proof.
  destruct (Run_first_half s)
    as [[Hdry Hc]|[(client & e & w & Hdry & Hc & Hcr)|(actual & s1 & Hres)]].
  - rewrite (Run_nil_client s Hdry Hc). simpl. split; [reflexivity|].
    exists [], []. rewrite (emitted_nil s s eq_refl). now repeat split; left.
  - rewrite (Run_create_error s client e w Hdry Hc Hcr). simpl. split; [reflexivity|].
    exists [CallCreate (new_identity (opts s))], [].
    erewrite emitted_app by reflexivity. split; [reflexivity|]. split; [now right | now left].
  - split.
    + pose proof (Run_prints s s1 actual Hres) as Hrun. cbv zeta in Hrun. rewrite Hrun.
      destruct (resulting_object_calls s s1 actual Hres) as [Ho _].
      destruct (String.eqb (OutputFormat (opts s)) "name" ||
                String.eqb (OutputFormat (opts s)) ""); [reflexivity|].
      destruct (Printer (opts s)); [reflexivity | exact Ho].
    + pose proof (Run_emits s s1 actual Hres) as Hem. cbv zeta in Hem.
      eexists _, _. split; [exact Hem|]. split.
      * destruct (DryRun (opts s)); [now left | now right].
      * destruct (String.eqb (OutputFormat (opts s)) "name" ||
                  String.eqb (OutputFormat (opts s)) "").
        -- right. eexists. split; reflexivity.
        -- destruct (Printer (opts s)); [|now left].
           right. eexists. split; reflexivity.
Qed.

(** X9. Whatever the options, [Run] assigns to none of them, and it calls
    [Create] at most once and an output step ([PrintSuccess] or the
    [Printer]) at most once, the [Create] call first; it makes no other
    call. *)
Theorem Run_at_most_one_create_then_one_output (s : state) :
  let evs := emitted s (snd (Run s)) in
  opts (snd (Run s)) = opts s /\
  evs = (filter is_Create evs ++ filter is_output evs)%list /\
  length (filter is_Create evs) <= 1 /\
  length (filter is_output evs) <= 1.
Proof.
  cbv zeta.
  destruct (Run_calls s) as (Ho & creates & outputs & Hem & Hc & Hout).
  split; [exact Ho|]. rewrite Hem. rewrite !filter_app.
  destruct Hc as [->| ->]; destruct Hout as [->|(ev & -> & Hev)]; simpl;
    try (assert (Hnc : is_Create ev = false) by (destruct ev; simpl in *; congruence);
         rewrite Hnc, Hev; simpl);
    (split; [reflexivity | split; lia]).
Qed.

(** Where an error of [Run] comes from. *)
Lemma Run_error_cases (s : state) (e : err) :
  fst (Run s) = Err e ->
  (exists client w,
     DryRun (opts s) = false /\ IdentityClient (opts s) = Some client /\
     Create client (new_identity (opts s)) (world s) = (inr e, w)) \/
  (exists actual s1 printer,
     resulting_object s actual s1 /\
     String.eqb (OutputFormat (opts s)) "name" || String.eqb (OutputFormat (opts s)) "" = false /\
     Printer (opts s) = Some printer /\
     fst (printer actual (Out (opts s)) (world s1)) = inr e).
Proof.
  intros H.
  destruct (Run_first_half s)
    as [[Hdry Hc]|[(client & e' & w & Hdry & Hc & Hcr)|(actual & s1 & Hres)]].
  - rewrite (Run_nil_client s Hdry Hc) in H. discriminate.
  - rewrite (Run_create_error s client e' w Hdry Hc Hcr) in H.
    injection H as ->. left. now exists client, w.
  - right. pose proof (Run_prints s s1 actual Hres) as Hrun. cbv zeta in Hrun.
    rewrite Hrun in H.
    destruct (String.eqb (OutputFormat (opts s)) "name" ||
              String.eqb (OutputFormat (opts s)) ""); [discriminate|].
    destruct (Printer (opts s)) as [printer|]; [|discriminate].
    exists actual, s1, printer. repeat split; try assumption.
    simpl in H. destruct (fst (printer actual (Out (opts s)) (world s1))); simpl in H;
      [discriminate | now injection H as ->].
Qed.

(** X10. An error [Run] returns is never its own: it is the error
    returned by [Create], or the error returned by the [Printer] for a
    format that is neither empty nor ["name"]. *)
Theorem Run_error_comes_from_a_collaborator (s : state) (e : err) :
  fst (Run s) = Err e ->
  (exists client w,
     DryRun (opts s) = false /\ IdentityClient (opts s) = Some client /\
     Create client (new_identity (opts s)) (world s) = (inr e, w)) \/
  (exists actual s1 printer,
     resulting_object s actual s1 /\
     String.eqb (OutputFormat (opts s)) "name" || String.eqb (OutputFormat (opts s)) "" = false /\
     Printer (opts s) = Some printer /\
     fst (printer actual (Out (opts s)) (world s1)) = inr e).
Proof. exact (Run_error_cases s e). Qed.

(** After a [Validate] that returned nil, both interface values [Run]
    calls through are there. *)
Lemma Run_validated_no_panic (s : state) (msg : string) :
  fst (Validate s) = Ok tt -> fst (Run s) <> Panic msg.
Proof.
  intros Hv H.
  destruct (Validate_ok_inv s Hv) as (_ & _ & [client Hc] & _ & [printer Hp]).
  destruct (Run_first_half s)
    as [[_ Hnil]|[(client' & e & w & Hdry & Hc' & Hcr)|(actual & s1 & Hres)]].
  - congruence.
  - rewrite (Run_create_error s client' e w Hdry Hc' Hcr) in H. discriminate.
  - pose proof (Run_prints s s1 actual Hres) as Hrun. cbv zeta in Hrun.
    rewrite Hrun, Hp in H.
    destruct (String.eqb (OutputFormat (opts s)) "name" ||
              String.eqb (OutputFormat (opts s)) ""); [discriminate|].
    simpl in H. destruct (fst (printer actual (Out (opts s)) (world s1))); discriminate.
Qed.

(** X11. The collaborators are taken to return when called; this leaves
    out an [IdentityClient] that is a non-nil interface around a nil
    pointer, which passes [Validate] and whose [Create] may panic in the
    callee.  Under that proviso the checks of [Validate] are enough for
    [Run] not to call through a nil interface or function value: after a
    [Validate] that returned nil, [Run] returns nil or an error, and an
    error is the one [Create] or the [Printer] returned. *)
Theorem Validate_guards_Run (s : state) :
  fst (Validate s) = Ok tt ->
  fst (Run s) = Ok tt \/
  exists e,
    fst (Run s) = Err e /\
    ((exists client w,
        IdentityClient (opts s) = Some client /\
        Create client (new_identity (opts s)) (world s) = (inr e, w)) \/
     (exists actual s1 printer,
        resulting_object s actual s1 /\ Printer (opts s) = Some printer /\
        fst (printer actual (Out (opts s)) (world s1)) = inr e)).
Proof.
  intros Hv.
  destruct (fst (Run s)) as [[]|e|msg] eqn:H.
  - now left.
  - right. exists e. split; [reflexivity|].
    destruct (Run_error_cases s e H)
      as [(client & w & _ & Hc & Hcr)|(actual & s1 & printer & Hres & _ & Hp & Hpr)].
    + left. now exists client, w.
    + right. now exists actual, s1, printer.
  - now destruct (Run_validated_no_panic s msg Hv).
Qed.

End RunMore.

(** ** The command: [Complete], [Validate] and [Run] in turn *)

Section CommandProofs.

Context `{Ext : Externals}.

Lemma client_construction_is_no_create (evs : list event) :
  forallb is_client_construction evs = true ->
  filter is_Create evs = [] /\ filter is_output evs = [].
Proof.
  induction evs as [|ev evs IH]; simpl; [now split|].
  intros H. apply andb_prop in H. destruct H as [Hev Hevs].
  destruct (IH Hevs) as [IH1 IH2].
  destruct ev; simpl in *; try discriminate; now split.
Qed.

(** [Run] only adds calls. *)
Lemma Run_appends (s : state) :
  calls (snd (Run s)) = (calls s ++ emitted s (snd (Run s)))%list.
Proof.
  assert (H : exists evs, calls (snd (Run s)) = (calls s ++ evs)%list).
  { destruct (Run_first_half s)
      as [[Hdry Hc]|[(client & e & w & Hdry & Hc & Hcr)|(actual & s1 & Hres)]].
    - rewrite (Run_nil_client s Hdry Hc). exists []. simpl. now rewrite app_nil_r.
    - rewrite (Run_create_error s client e w Hdry Hc Hcr). eexists. reflexivity.
    - pose proof (Run_prints s s1 actual Hres) as Hrun. cbv zeta in Hrun. rewrite Hrun.
      destruct (resulting_object_calls s s1 actual Hres) as [_ Hcalls].
      destruct (String.eqb (OutputFormat (opts s)) "name" ||
                String.eqb (OutputFormat (opts s)) ""); simpl.
      + rewrite Hcalls, <- app_assoc. eexists. reflexivity.
      + destruct (Printer (opts s)); simpl.
        * rewrite Hcalls, <- app_assoc. eexists. reflexivity.
        * rewrite Hcalls. eexists. reflexivity. }
  destruct H as [evs H]. now rewrite (emitted_app s _ evs H).
Qed.

(** The command stops at the first method that does not return nil. *)
Lemma command_Run_stops (cmd : Command) (f : Factory) (args : list string) (s : state) :
  fst (Complete cmd f args s) <> Ok tt ->
  command_Run cmd f args s = Complete cmd f args s.
Proof.
  intros H. unfold command_Run. unfold bind at 1.
  destruct (Complete cmd f args s) as [[[]|e|msg] s1]; simpl in *; congruence.
Qed.

Lemma command_Run_continues (cmd : Command) (f : Factory) (args : list string)
      (s s1 : state) :
  Complete cmd f args s = (Ok tt, s1) ->
  command_Run cmd f args s =
    match fst (Validate s1) with
    | Ok _ => Run s1
    | Err e => (Err e, s1)
    | Panic msg => (Panic msg, s1)
    end.
Proof.
  intros H. unfold command_Run. unfold bind at 1. rewrite H.
  unfold bind. pose proof (Validate_state s1) as Hs.
  destruct (Validate s1) as [[[]|e|msg] s2]; simpl in *; now subst.
Qed.

Lemma Validate_never_panics (s : state) (msg : string) : fst (Validate s) <> Panic msg.
Proof.
  rewrite Validate_first_failing.
  destruct (first_failing (Validate_checks (opts s))); discriminate.
Qed.

(** X12. When the argument switch of [Complete] returns an error, the
    command ends with that error in the state it started in: it has
    asked for no client configuration, built no client, created nothing
    and printed nothing. *)
Theorem command_argument_error_makes_no_call
        (cmd : Command) (f : Factory) (args : list string) (s : state) (e : err) :
  fst (Complete_switch args s) = Err e ->
  command_Run cmd f args s = (Err e, s) /\
  emitted s (snd (command_Run cmd f args s)) = [].
Proof.
  intros H.
  pose proof (Complete_switch_error cmd f args s e H) as HC.
  assert (Hr : command_Run cmd f args s = (Err e, s)).
  { rewrite command_Run_stops; [exact HC | now rewrite HC]. }
  split; [exact Hr|]. rewrite Hr. now apply emitted_nil.
Qed.

(** X13. When the [dry-run] flag is set, the command never calls
    [Create], whatever the arguments, the other flags and the
    collaborators do. *)
Theorem command_dry_run_never_creates
        (cmd : Command) (f : Factory) (args : list string) (s : state) :
  GetFlagBool cmd "dry-run" = true ->
  filter is_Create (emitted s (snd (command_Run cmd f args s))) = [].
Proof.
  intros Hflag.
  destruct (Complete_appends cmd f args s) as [_ (evs & Hcalls & Hevs)].
  destruct (client_construction_is_no_create evs Hevs) as [Hnc _].
  destruct (Complete cmd f args s) as [[[]|e|msg] s1] eqn:HC.
  - assert (Hdry : DryRun (opts s1) = true).
    { destruct (Complete_ok_inv cmd f args s) as (a & p & u & config & w & client & w' & H);
        [now rewrite HC|].
      destruct H as (_ & _ & _ & _ & Hst). rewrite HC in Hst. simpl in Hst.
      now rewrite Hst. }
    rewrite (command_Run_continues cmd f args s s1 HC). simpl in Hcalls.
    destruct (fst (Validate s1)) as [[]|e|msg]; simpl.
    + assert (Hres : resulting_object s1 (new_identity (opts s1)) s1).
      { unfold resulting_object. now rewrite Hdry. }
      pose proof (Run_emits s1 s1 _ Hres) as Hem. cbv zeta in Hem.
      rewrite Hdry in Hem. simpl in Hem.
      rewrite (emitted_app s (snd (Run s1)) (evs ++ emitted s1 (snd (Run s1)))).
      * rewrite filter_app, Hnc, Hem. simpl.
        pose proof (output_has_no_Create (opts s1) (new_identity (opts s1))) as Hout.
        cbv zeta in Hout. now rewrite Hdry in Hout.
      * now rewrite Run_appends, Hcalls, app_assoc.
    + now rewrite (emitted_app s s1 evs Hcalls).
    + now rewrite (emitted_app s s1 evs Hcalls).
  - rewrite command_Run_stops by (rewrite HC; discriminate).
    rewrite HC. simpl in *. now rewrite (emitted_app s s1 evs Hcalls).
  - rewrite command_Run_stops by (rewrite HC; discriminate).
    rewrite HC. simpl in *. now rewrite (emitted_app s s1 evs Hcalls).
Qed.

(** X14. The command never calls through a nil [IdentityClient] or a nil
    [Printer], the only panics of its own code: whatever state it starts
    in, the nil checks of [Validate] stand between [Complete] and the
    calls [Run] makes through these two fields. *)
Theorem command_never_panics
        (cmd : Command) (f : Factory) (args : list string) (s : state) (msg : string) :
  fst (command_Run cmd f args s) <> Panic msg.
Proof.
  destruct (Complete_appends cmd f args s) as [Hnp _].
  destruct (Complete cmd f args s) as [[[]|e|m] s1] eqn:HC.
  - rewrite (command_Run_continues cmd f args s s1 HC).
    destruct (fst (Validate s1)) as [[]|e|m] eqn:Hv.
    + apply Run_validated_no_panic. exact Hv.
    + discriminate.
    + now destruct (Validate_never_panics s1 m).
  - rewrite command_Run_stops by (rewrite HC; discriminate). rewrite HC. discriminate.
  - now destruct (Hnp m).
Qed.

(** The state in which [Run] starts when the command was given a
    well-formed argument, an output sink, and collaborators that built the
    client. *)
Lemma command_Run_wired
      (cmd : Command) (f : Factory) (p u : string) (s : state) (out : Writer)
      (config : Config) (w1 : World) (client : Clientset) (w2 : World) :
  strings.Count p ":" = 0 -> strings.Count u ":" = 0 ->
  p <> "" -> u <> "" ->
  Out (opts s) = Some out ->
  ClientConfig f (world s) = (inl config, w1) ->
  NewForConfig config w1 = (inl client, w2) ->
  command_Run cmd f [p ++ ":" ++ u] s =
    Run (mkState
           (mkOptions p u (Some {| Create := Identities_Create client |})
                      (GetFlagBool cmd "dry-run") (GetFlagString cmd "output")
                      (Some out) (Some (fun obj o => PrintObject cmd obj o)))
           w2 (calls s ++ [CallClientConfig; CallNewForConfig config])).
Proof.
  intros Hp Hu Hpe Hue Hout Hcc Hnew.
  pose proof (Complete_switch_two_parts (p ++ ":" ++ u) p u s
                (Split_provider_user p u Hp Hu)) as Hsw.
  pose proof (Complete_past_switch cmd f _ s _ Hsw) as HC.
  simpl in HC. rewrite Hcc, Hnew in HC. unfold set_Printer in HC. simpl in HC.
  rewrite Hout in HC.
  change (p ++ ":" ++ u) with (p ++ String ":" u).
  rewrite (command_Run_continues cmd f _ s _ HC).
  rewrite Validate_first_failing. unfold first_failing, Validate_checks. simpl.
  destruct p as [|c p]; [congruence|]. destruct u as [|d u]; [congruence|].
  reflexivity.
Qed.



(** X17. In the same setting with the [dry-run] flag set, the command
    builds the client but never calls [Create]; the one output step is
    given the identity built locally, with only the two names set, and
    [PrintSuccess] is told that this is a dry run. *)
Theorem command_dry_run_prints_local_identity
        (cmd : Command) (f : Factory) (p u : string) (s : state) (out : Writer)
        (config : Config) (w1 : World) (client : Clientset) (w2 : World) :
  strings.Count p ":" = 0 -> strings.Count u ":" = 0 ->
  p <> "" -> u <> "" ->
  Out (opts s) = Some out ->
  ClientConfig f (world s) = (inl config, w1) ->
  NewForConfig config w1 = (inl client, w2) ->
  GetFlagBool cmd "dry-run" = true ->
  let r := command_Run cmd f [p ++ ":" ++ u] s in
  let local := userapi.mkIdentity "" p u in
  let useShortOutput := String.eqb (GetFlagString cmd "output") "name" in
  if useShortOutput || String.eqb (GetFlagString cmd "output") "" then
    fst r = Ok tt /\
    world (snd r) = PrintSuccess useShortOutput (Some out) local true "created" w2 /\
    emitted s (snd r) =
      [CallClientConfig; CallNewForConfig config;
       CallPrintSuccess useShortOutput (Some out) local true "created"]
  else
    fst r = outcome_of (fst (PrintObject cmd local (Some out) w2)) /\
    world (snd r) = snd (PrintObject cmd local (Some out) w2) /\
    emitted s (snd r) =
      [CallClientConfig; CallNewForConfig config; CallPrinter local (Some out)].
Proof.
  intros Hp Hu Hpe Hue Hout Hcc Hnew Hdry. cbv zeta.
  rewrite (command_Run_wired cmd f p u s out config w1 client w2
             Hp Hu Hpe Hue Hout Hcc Hnew).
  set (s1 := mkState _ w2 _).
  assert (Hres : resulting_object s1 (new_identity (opts s1)) s1).
  { unfold resulting_object. simpl. rewrite Hdry. now split. }
  pose proof (Run_prints s1 _ _ Hres) as Hrun. cbv zeta in Hrun. simpl in Hrun.
  rewrite Hrun, Hdry.
  destruct (String.eqb (GetFlagString cmd "output") "name" ||
            String.eqb (GetFlagString cmd "output") ""); simpl.
  - split; [reflexivity|]. split; [reflexivity|].
    apply emitted_app. simpl. now rewrite <- !app_assoc.
  - split; [reflexivity|]. split; [reflexivity|].
    apply emitted_app. simpl. now rewrite <- !app_assoc.
Qed.

(** X18. Started without an output sink ([Out] nil, as when
    [NewCmdCreateIdentity] is given a nil writer), the command never
    returns nil and ends in the state [Complete] left: [Validate] stops
    it before [Run], so it never calls [Create] and never prints. *)
Theorem command_without_out_never_creates
        (cmd : Command) (f : Factory) (args : list string) (s : state) :
  Out (opts s) = None ->
  let r := command_Run cmd f args s in
  fst r <> Ok tt /\
  snd r = snd (Complete cmd f args s) /\
  filter is_Create (emitted s (snd r)) = [] /\
  filter is_output (emitted s (snd r)) = [].
Proof.
  intros Hout. cbv zeta.
  destruct (Complete_appends cmd f args s) as [_ (evs & Hcalls & Hevs)].
  destruct (client_construction_is_no_create evs Hevs) as [Hnc Hno].
  assert (Hstop : fst (command_Run cmd f args s) <> Ok tt /\
                  snd (command_Run cmd f args s) = snd (Complete cmd f args s)).
  { destruct (Complete cmd f args s) as [[[]|e|msg] s1] eqn:HC.
    - destruct (Complete_ok_inv cmd f args s)
        as (a & p & u & config & w & client & w' & _ & _ & _ & _ & Hst);
        [now rewrite HC|].
      rewrite HC in Hst. simpl in Hst.
      rewrite (command_Run_continues cmd f args s s1 HC).
      destruct (fst (Validate s1)) as [[]|e|msg] eqn:Hv.
      + destruct (Validate_ok_inv s1 Hv) as (_ & _ & _ & [out Ho] & _).
        rewrite Hst in Ho. simpl in Ho. congruence.
      + split; [discriminate | reflexivity].
      + now destruct (Validate_never_panics s1 msg).
    - rewrite command_Run_stops by (rewrite HC; discriminate).
      rewrite HC. split; [discriminate | reflexivity].
    - rewrite command_Run_stops by (rewrite HC; discriminate).
      rewrite HC. split; [discriminate | reflexivity]. }
  destruct Hstop as [Hne Hsnd].
  split; [exact Hne|]. split; [exact Hsnd|].
  rewrite Hsnd, (emitted_app s _ evs Hcalls). now split.
Qed.

End CommandProofs.

(** ** The properties at work on the test double

    The command of the specification's scenarios, [acme_ldap:adamjones],
    run against the test double. *)

Module Scenarios.

Lemma Complete_parses_provider_and_user_witness :
  ("acme_ldap" <> "" /\ "adamjones" <> "" /\
   strings.Count "acme_ldap" ":" = 0 /\ strings.Count "adamjones" ":" = 0) /\
  let r := Complete (Ext := Mock.externals) Mock.plain Mock.factory
                    ["acme_ldap:adamjones"] Mock.start in
  ProviderName (opts (snd r)) = "acme_ldap" /\
  ProviderUserName (opts (snd r)) = "adamjones" /\
  fst r = Ok tt.
Proof.
  assert (H1 : "acme_ldap" <> "") by discriminate.
  assert (H2 : "adamjones" <> "") by discriminate.
  assert (H3 : strings.Count "acme_ldap" ":" = 0) by reflexivity.
  assert (H4 : strings.Count "adamjones" ":" = 0) by reflexivity.
  split; [repeat split; assumption|].
  destruct (Complete_parses_provider_and_user (Ext := Mock.externals)
              Mock.plain Mock.factory "acme_ldap" "adamjones" Mock.start H1 H2 H3 H4)
    as (_ & Hp & Hu & Hr).
  split; [exact Hp | split; [exact Hu | exact Hr]].
Defined.

Lemma Run_creates_exactly_once_witness :
  let s := Mock.completed Mock.plain in
  let s' := Mock.conflicting Mock.plain in
  (fst (Validate (Ext := Mock.externals) s) = Ok tt /\ DryRun (opts s) = false) /\
  (fst (Validate (Ext := Mock.externals) s') = Ok tt /\ DryRun (opts s') = false) /\
  (filter is_Create (emitted s (snd (Run (Ext := Mock.externals) s)))
     = [CallCreate Mock.local_identity] /\
   fst (Run (Ext := Mock.externals) s) = Ok tt /\
   world (snd (Run (Ext := Mock.externals) s))
     = Mock.mkWorld ["acme_ldap:adamjones"] ["identity/acme_ldap:adamjones created"] /\
   calls (snd (Run (Ext := Mock.externals) s))
     = (calls s ++ [CallCreate Mock.local_identity;
                    CallPrintSuccess false Mock.stdout Mock.server_identity false
                                     "created"])%list) /\
  (filter is_Create (emitted s' (snd (Run (Ext := Mock.externals) s')))
     = [CallCreate Mock.local_identity] /\
   fst (Run (Ext := Mock.externals) s')
     = Err (Ext := Mock.externals) (Foreign "AlreadyExists") /\
   world (snd (Run (Ext := Mock.externals) s')) = world s').
Proof.
  intros s s'.
  assert (H1 : fst (Validate (Ext := Mock.externals) s) = Ok tt) by reflexivity.
  assert (H2 : DryRun (opts s) = false) by reflexivity.
  assert (H1' : fst (Validate (Ext := Mock.externals) s') = Ok tt) by reflexivity.
  assert (H2' : DryRun (opts s') = false) by reflexivity.
  split; [now split|]. split; [now split|]. split.
  - destruct (Run_creates_exactly_once (Ext := Mock.externals) s H1 H2)
      as (_ & _ & Hcreate & client & printer & Hc & Hp & Hrun).
    split; [exact Hcreate|].
    injection Hc as <-.
    destruct Hrun as [_ Hrun].
    split; [exact (f_equal fst Hrun)|].
    split; [exact (f_equal (fun r => world (snd r)) Hrun)
           |exact (f_equal (fun r => calls (snd r)) Hrun)].
  - destruct (Run_creates_exactly_once (Ext := Mock.externals) s' H1' H2')
      as (_ & _ & Hcreate & client & printer & Hc & Hp & Hrun).
    split; [exact Hcreate|].
    injection Hc as <-.
    destruct Hrun as [Hrun _].
    split; [exact (f_equal fst Hrun) | exact (f_equal (fun r => world (snd r)) Hrun)].
Defined.

Lemma Run_dry_run_skips_create_witness :
  let s := Mock.completed Mock.dry in
  DryRun (opts s) = true /\
  emitted s (snd (Run (Ext := Mock.externals) s))
    = [CallPrintSuccess false Mock.stdout Mock.local_identity true "created"] /\
  fst (Run (Ext := Mock.externals) s) = Ok tt /\
  world (snd (Run (Ext := Mock.externals) s))
    = Mock.mkWorld [] ["identity/ created (dry run)"].
Proof.
  intros s.
  assert (H : DryRun (opts s) = true) by reflexivity.
  split; [exact H|].
  destruct (Run_dry_run_skips_create (Ext := Mock.externals) s H)
    as (_ & _ & _ & _ & Hem & Hrun).
  split; [exact Hem|].
  split; [exact (f_equal fst Hrun) | exact (f_equal (fun r => world (snd r)) Hrun)].
Defined.

Lemma Run_output_policy_witness :
  let s := Mock.completed Mock.json in
  let s1 := mkState (opts s) (Mock.mkWorld ["acme_ldap:adamjones"] [])
                    (calls s ++ [CallCreate Mock.local_identity]) in
  resulting_object (Ext := Mock.externals) s Mock.server_identity s1 /\
  fst (Run (Ext := Mock.externals) s) = Ok tt /\
  filter is_output (emitted s (snd (Run (Ext := Mock.externals) s)))
    = [CallPrinter Mock.server_identity Mock.stdout].
Proof.
  intros s s1.
  assert (H : resulting_object (Ext := Mock.externals) s Mock.server_identity s1).
  { unfold resulting_object. simpl.
    eexists. eexists. split; [reflexivity|]. split; reflexivity. }
  split; [exact H|].
  destruct (Run_output_policy (Ext := Mock.externals) s s1 _ H) as [Hrun Hout].
  split; [exact (f_equal fst Hrun) | exact Hout].
Defined.

Lemma Complete_malformed_argument_witness :
  length (strings.Split "foo" ":") <> 2 /\
  Complete (Ext := Mock.externals) Mock.plain Mock.factory ["foo"] Mock.start =
    (Err (Errorf
       "identity name in the format <PROVIDER_NAME>:<PROVIDER_USER_NAME> is required"),
     Mock.start).
Proof.
  assert (H : length (strings.Split "foo" ":") <> 2) by discriminate.
  split; [exact H|].
  exact (proj1 (Complete_malformed_argument (Ext := Mock.externals)
                  Mock.plain Mock.factory "foo" Mock.start H)).
Defined.

Lemma Complete_too_many_arguments_witness :
  2 <= length ["a"; "b"] /\
  Complete (Ext := Mock.externals) Mock.plain Mock.factory ["a"; "b"] Mock.start =
    (Err (Errorf "exactly one argument (username) is supported, not: [a b]"),
     Mock.start).
Proof.
  assert (H : 2 <= length ["a"; "b"]) by (simpl; lia).
  split; [exact H|].
  exact (Complete_too_many_arguments (Ext := Mock.externals)
           Mock.plain Mock.factory ["a"; "b"] Mock.start H).
Defined.

Lemma Complete_switch_error_keeps_options_witness :
  fst (Complete_switch (Ext := Mock.externals) ["a:b:c"] Mock.start) =
    Err (Errorf
      "identity name in the format <PROVIDER_NAME>:<PROVIDER_USER_NAME> is required") /\
  Complete (Ext := Mock.externals) Mock.json Mock.factory ["a:b:c"] Mock.start =
    (Err (Errorf
       "identity name in the format <PROVIDER_NAME>:<PROVIDER_USER_NAME> is required"),
     Mock.start).
Proof.
  assert (H : fst (Complete_switch (Ext := Mock.externals) ["a:b:c"] Mock.start) =
              Err (Errorf
                "identity name in the format <PROVIDER_NAME>:<PROVIDER_USER_NAME> is required"))
    by reflexivity.
  split; [exact H|].
  destruct (Complete_switch_error_keeps_options (Ext := Mock.externals)
              Mock.json Mock.factory ["a:b:c"] Mock.start _ H) as (_ & Hc & _).
  exact Hc.
Defined.

(** The scenarios of the specification, end to end. *)

Example scenario_create :
  let r := command_Run (Ext := Mock.externals) Mock.plain Mock.factory
                       ["acme_ldap:adamjones"] Mock.start in
  fst r = Ok tt /\
  filter is_Create (calls (snd r)) = [CallCreate Mock.local_identity] /\
  Mock.stored (world (snd r)) = ["acme_ldap:adamjones"] /\
  Mock.printed (world (snd r)) = ["identity/acme_ldap:adamjones created"].
Proof. vm_compute. repeat split. Qed.

Example scenario_dry_run :
  let r := command_Run (Ext := Mock.externals) Mock.dry Mock.factory
                       ["acme_ldap:adamjones"] Mock.start in
  fst r = Ok tt /\
  filter is_Create (calls (snd r)) = [] /\
  Mock.stored (world (snd r)) = [] /\
  Mock.printed (world (snd r)) = ["identity/ created (dry run)"].
Proof. vm_compute. repeat split. Qed.

Example scenario_json :
  let r := command_Run (Ext := Mock.externals) Mock.json Mock.factory
                       ["acme_ldap:adamjones"] Mock.start in
  fst r = Ok tt /\
  filter is_output (calls (snd r)) = [CallPrinter Mock.server_identity Mock.stdout] /\
  Mock.printed (world (snd r)) = ["{acme_ldap:adamjones}"].
Proof. vm_compute. repeat split. Qed.

(** Idempotence is not guaranteed: the same command run a second time
    asks the server again, which here refuses. *)
Example scenario_twice :
  let first := command_Run (Ext := Mock.externals) Mock.plain Mock.factory
                           ["acme_ldap:adamjones"] Mock.start in
  let second := command_Run (Ext := Mock.externals) Mock.plain Mock.factory
                            ["acme_ldap:adamjones"]
                            (mkState (opts Mock.start) (world (snd first)) []) in
  fst second = Err (Ext := Mock.externals) (Foreign "AlreadyExists") /\
  filter is_Create (calls (snd second)) = [CallCreate Mock.local_identity].
Proof. vm_compute. repeat split. Qed.

End Scenarios.

(** ** The further properties at work on the test double *)

Module MoreScenarios.

Lemma Complete_names_rebuild_argument_witness :
  fst (Complete_switch (Ext := Mock.externals) ["acme_ldap:adamjones"] Mock.start) = Ok tt /\
  let o' := opts (snd (Complete (Ext := Mock.externals) Mock.plain Mock.factory
                                ["acme_ldap:adamjones"] Mock.start)) in
  ["acme_ldap:adamjones"] = [ProviderName o' ++ ":" ++ ProviderUserName o'] /\
  strings.Count (ProviderName o') ":" = 0 /\
  strings.Count (ProviderUserName o') ":" = 0.
Proof.
  assert (H : fst (Complete_switch (Ext := Mock.externals)
                     ["acme_ldap:adamjones"] Mock.start) = Ok tt) by reflexivity.
  split; [exact H|].
  exact (Complete_names_rebuild_argument (Ext := Mock.externals)
           Mock.plain Mock.factory ["acme_ldap:adamjones"] Mock.start H).
Defined.

Lemma Complete_client_config_error_witness :
  (fst (Complete_switch (Ext := Mock.externals) ["acme_ldap:adamjones"] Mock.start) = Ok tt /\
   ClientConfig Mock.failing_factory (world Mock.start) =
     (inr (Foreign "no configuration"), Mock.empty_world)) /\
  let r := Complete (Ext := Mock.externals) Mock.dry Mock.failing_factory
                    ["acme_ldap:adamjones"] Mock.start in
  fst r = Err (Ext := Mock.externals) (Foreign "no configuration") /\
  emitted Mock.start (snd r) = [CallClientConfig] /\
  world (snd r) = Mock.empty_world /\
  DryRun (opts (snd r)) = true /\
  IdentityClient (opts (snd r)) = None /\
  OutputFormat (opts (snd r)) = "" /\
  Printer (opts (snd r)) = None.
Proof.
  assert (H1 : fst (Complete_switch (Ext := Mock.externals)
                      ["acme_ldap:adamjones"] Mock.start) = Ok tt) by reflexivity.
  assert (H2 : ClientConfig Mock.failing_factory (world Mock.start) =
               (inr (Foreign "no configuration"), Mock.empty_world)) by reflexivity.
  split; [now split|].
  exact (Complete_client_config_error (Ext := Mock.externals) Mock.dry
           Mock.failing_factory ["acme_ldap:adamjones"] Mock.start _ _ H1 H2).
Defined.

Lemma Complete_new_for_config_error_witness :
  (fst (Complete_switch (Ext := Mock.externals_no_client)
          ["acme_ldap:adamjones"] Mock.start_no_client) = Ok tt /\
   ClientConfig Mock.factory_no_client (world Mock.start_no_client) =
     (inl tt, Mock.empty_world) /\
   NewForConfig (Externals := Mock.externals_no_client) tt Mock.empty_world =
     (inr (Foreign "invalid configuration"), Mock.empty_world)) /\
  let r := Complete (Ext := Mock.externals_no_client) Mock.dry Mock.factory_no_client
                    ["acme_ldap:adamjones"] Mock.start_no_client in
  fst r = Err (Ext := Mock.externals_no_client) (Foreign "invalid configuration") /\
  emitted Mock.start_no_client (snd r) =
    [CallClientConfig; CallNewForConfig (Ext := Mock.externals_no_client) tt] /\
  world (snd r) = Mock.empty_world /\
  DryRun (opts (snd r)) = true /\
  IdentityClient (opts (snd r)) = None /\
  OutputFormat (opts (snd r)) = "" /\
  Printer (opts (snd r)) = None.
Proof.
  assert (H1 : fst (Complete_switch (Ext := Mock.externals_no_client)
                      ["acme_ldap:adamjones"] Mock.start_no_client) = Ok tt)
    by reflexivity.
  assert (H2 : ClientConfig Mock.factory_no_client (world Mock.start_no_client) =
               (inl tt, Mock.empty_world)) by reflexivity.
  assert (H3 : NewForConfig (Externals := Mock.externals_no_client) tt Mock.empty_world =
               (inr (Foreign "invalid configuration"), Mock.empty_world)) by reflexivity.
  split; [repeat split; assumption|].
  exact (Complete_new_for_config_error (Ext := Mock.externals_no_client) Mock.dry
           Mock.factory_no_client ["acme_ldap:adamjones"] Mock.start_no_client
           _ _ _ _ H1 H2 H3).
Defined.

Lemma Validate_after_Complete_witness :
  fst (Complete (Ext := Mock.externals) Mock.plain Mock.factory
                ["acme_ldap:adamjones"] Mock.start) = Ok tt /\
  fst (Validate (Ext := Mock.externals) (Mock.completed Mock.plain)) = Ok tt.
Proof.
  assert (H : fst (Complete (Ext := Mock.externals) Mock.plain Mock.factory
                            ["acme_ldap:adamjones"] Mock.start) = Ok tt) by reflexivity.
  split; [exact H|].
  exact (proj2 (Validate_after_Complete (Ext := Mock.externals) Mock.plain Mock.factory
                  ["acme_ldap:adamjones"] Mock.start H)).
Defined.

Lemma Run_error_comes_from_a_collaborator_witness :
  let s := Mock.conflicting Mock.plain in
  fst (Run (Ext := Mock.externals) s) = Err (Ext := Mock.externals) (Foreign "AlreadyExists") /\
  ((exists client w,
      DryRun (opts s) = false /\ IdentityClient (opts s) = Some client /\
      Create client (new_identity (opts s)) (world s) = (inr (Foreign "AlreadyExists"), w)) \/
   (exists actual s1 printer,
      resulting_object s actual s1 /\
      String.eqb (OutputFormat (opts s)) "name" || String.eqb (OutputFormat (opts s)) ""
        = false /\
      Printer (opts s) = Some printer /\
      fst (printer actual (Out (opts s)) (world s1)) = inr (Foreign "AlreadyExists"))).
Proof.
  intros s.
  assert (H : fst (Run (Ext := Mock.externals) s)
              = Err (Ext := Mock.externals) (Foreign "AlreadyExists")) by reflexivity.
  split; [exact H|].
  exact (Run_error_comes_from_a_collaborator (Ext := Mock.externals) s _ H).
Defined.

Lemma Validate_guards_Run_witness :
  let s := Mock.completed Mock.plain in
  fst (Validate (Ext := Mock.externals) s) = Ok tt /\
  (fst (Run s) = Ok tt \/
   exists e,
     fst (Run s) = Err e /\
     ((exists client w,
         IdentityClient (opts s) = Some client /\
         Create client (new_identity (opts s)) (world s) = (inr e, w)) \/
      (exists actual s1 printer,
         resulting_object s actual s1 /\ Printer (opts s) = Some printer /\
         fst (printer actual (Out (opts s)) (world s1)) = inr e))).
Proof.
  intros s.
  assert (H : fst (Validate (Ext := Mock.externals) s) = Ok tt) by reflexivity.
  split; [exact H|].
  exact (Validate_guards_Run (Ext := Mock.externals) s H).
Defined.

Lemma command_argument_error_makes_no_call_witness :
  fst (Complete_switch (Ext := Mock.externals) ["foo"] Mock.start) =
    Err (Errorf
      "identity name in the format <PROVIDER_NAME>:<PROVIDER_USER_NAME> is required") /\
  command_Run (Ext := Mock.externals) Mock.plain Mock.factory ["foo"] Mock.start =
    (Err (Errorf
       "identity name in the format <PROVIDER_NAME>:<PROVIDER_USER_NAME> is required"),
     Mock.start) /\
  emitted Mock.start
          (snd (command_Run (Ext := Mock.externals) Mock.plain Mock.factory ["foo"]
                            Mock.start)) = [].
Proof.
  assert (H : fst (Complete_switch (Ext := Mock.externals) ["foo"] Mock.start) =
              Err (Errorf
                "identity name in the format <PROVIDER_NAME>:<PROVIDER_USER_NAME> is required"))
    by reflexivity.
  split; [exact H|].
  exact (command_argument_error_makes_no_call (Ext := Mock.externals)
           Mock.plain Mock.factory ["foo"] Mock.start _ H).
Defined.

Lemma command_dry_run_never_creates_witness :
  GetFlagBool (Externals := Mock.externals) Mock.dry "dry-run" = true /\
  filter is_Create
    (emitted Mock.start
       (snd (command_Run (Ext := Mock.externals) Mock.dry Mock.factory
                         ["acme_ldap:adamjones"] Mock.start))) = [].
Proof.
  assert (H : GetFlagBool (Externals := Mock.externals) Mock.dry "dry-run" = true)
    by reflexivity.
  split; [exact H|].
  exact (command_dry_run_never_creates (Ext := Mock.externals) Mock.dry Mock.factory
           ["acme_ldap:adamjones"] Mock.start H).
Defined.



Lemma command_dry_run_prints_local_identity_witness :
  (strings.Count "acme_ldap" ":" = 0 /\ strings.Count "adamjones" ":" = 0 /\
   "acme_ldap" <> "" /\ "adamjones" <> "" /\
   Out (opts Mock.start) = Some tt /\
   ClientConfig Mock.factory (world Mock.start) = (inl tt, Mock.empty_world) /\
   NewForConfig (Externals := Mock.externals) tt Mock.empty_world
     = (inl tt, Mock.empty_world) /\
   GetFlagBool (Externals := Mock.externals) Mock.dry "dry-run" = true) /\
  let r := command_Run (Ext := Mock.externals) Mock.dry Mock.factory
                       ["acme_ldap:adamjones"] Mock.start in
  fst r = Ok tt /\
  world (snd r) = Mock.mkWorld [] ["identity/ created (dry run)"] /\
  emitted Mock.start (snd r) =
    [CallClientConfig; CallNewForConfig (Ext := Mock.externals) tt;
     CallPrintSuccess false Mock.stdout Mock.local_identity true "created"].
Proof.
  assert (H1 : strings.Count "acme_ldap" ":" = 0) by reflexivity.
  assert (H2 : strings.Count "adamjones" ":" = 0) by reflexivity.
  assert (H3 : "acme_ldap" <> "") by discriminate.
  assert (H4 : "adamjones" <> "") by discriminate.
  assert (H5 : Out (opts Mock.start) = Some tt) by reflexivity.
  assert (H6 : ClientConfig Mock.factory (world Mock.start) = (inl tt, Mock.empty_world))
    by reflexivity.
  assert (H7 : NewForConfig (Externals := Mock.externals) tt Mock.empty_world
               = (inl tt, Mock.empty_world)) by reflexivity.
  assert (H8 : GetFlagBool (Externals := Mock.externals) Mock.dry "dry-run" = true)
    by reflexivity.
  split; [repeat split; assumption|].
  exact (command_dry_run_prints_local_identity (Ext := Mock.externals) Mock.dry
           Mock.factory "acme_ldap" "adamjones" Mock.start tt tt Mock.empty_world tt
           Mock.empty_world H1 H2 H3 H4 H5 H6 H7 H8).
Defined.

Lemma command_without_out_never_creates_witness :
  let s := mkState (Ext := Mock.externals) (initial_options None) Mock.empty_world [] in
  Out (opts s) = None /\
  let r := command_Run (Ext := Mock.externals) Mock.plain Mock.factory
                       ["acme_ldap:adamjones"] s in
  fst r <> Ok tt /\
  snd r = snd (Complete (Ext := Mock.externals) Mock.plain Mock.factory
                        ["acme_ldap:adamjones"] s) /\
  filter is_Create (emitted s (snd r)) = [] /\
  filter is_output (emitted s (snd r)) = [].
Proof.
  intros s.
  assert (H : Out (opts s) = None) by reflexivity.
  split; [exact H|].
  exact (command_without_out_never_creates (Ext := Mock.externals) Mock.plain
           Mock.factory ["acme_ldap:adamjones"] s H).
Defined.

End MoreScenarios.
